(** * python-editor-next: settings validation, router state and signature help

    A shallow embedding of three pieces of the editor front end:

    - [SignatureHelp]: the CodeMirror state field, view plugin and tooltip
      formatter of [src/editor/codemirror/language-server/signatureHelp.ts];
    - [Router]: the query-parameter router ([RouterParam], [parse],
      [navigate], [useRouterParam]);
    - [Settings]: the settings record and [isValidSettingsObject].

    JavaScript values are modelled as the code uses them: [null] and
    [undefined] are distinct, objects are ordered property lists, an
    exception is an explicit [Throw] outcome.  Strings are [string]; offsets
    into documents and labels are integers ([Z]). *)

From Stdlib Require Import ZArith List String Ascii Bool Lia.
Import ListNotations.

Set Warnings "-register-all".

Local Open Scope string_scope.
Local Open Scope Z_scope.

(** ** Outcomes of a JavaScript call *)

Inductive JsError : Type :=
| TypeError
| Error (message : string).

Inductive Completion (A : Type) : Type :=
| Return (a : A)
| Throw (e : JsError).

Arguments Return {A} a.
Arguments Throw {A} e.

Definition bind {A B : Type} (c : Completion A) (k : A -> Completion B)
  : Completion B :=
  match c with
  | Return a => k a
  | Throw e => Throw e
  end.

Notation "x <- c ;; k" := (bind c (fun x => k))
  (at level 61, c at next level, right associativity).

(** [arr[i]] for a numeric index: the element, or [undefined] ([None]) when
    the index is negative or past the end. *)
Definition array_get {A : Type} (arr : list A) (i : Z) : option A :=
  if i <? 0 then None else nth_error arr (Z.to_nat i).

Definition is_some {A : Type} (o : option A) : bool :=
  match o with
  | Some _ => true
  | None => false
  end.

(** [s.substring(start, end)]: both indices are clamped to [0, length] and
    swapped when [start > end]. *)
Definition clamp (len i : Z) : Z := Z.max 0 (Z.min i len).

Definition js_substring (s : string) (i j : Z) : string :=
  let len := Z.of_nat (String.length s) in
  let a := clamp len i in
  let b := clamp len j in
  let lo := Z.min a b in
  let hi := Z.max a b in
  String.substring (Z.to_nat lo) (Z.to_nat (hi - lo)) s.

Definition js_substring_from (s : string) (i : Z) : string :=
  js_substring s i (Z.of_nat (String.length s)).

(** [s.endsWith(suffix)] *)
Definition endsWith (s suffix : string) : bool :=
  let n := String.length s in
  let m := String.length suffix in
  if Nat.ltb n m then false
  else String.eqb (String.substring (n - m) m s) suffix.

(** * Signature help *)

Module SignatureHelp.

(** ** Language-server payload (vscode-languageserver-protocol) *)

(** [ParameterInformation.label]: [string | [uinteger, uinteger]]. *)
Inductive ParameterLabel : Type :=
| LabelString (s : string)
| LabelOffsets (from to : Z).

(** [string | MarkupContent] *)
Inductive Documentation : Type :=
| DocString (s : string)
| DocMarkup (kind value : string).

Record ParameterInformation : Type := {
  param_label : ParameterLabel;
  param_documentation : option Documentation
}.

Record SignatureInformation : Type := {
  sig_label : string;
  sig_documentation : option Documentation;
  sig_parameters : option (list ParameterInformation);
  sig_activeParameter : option Z
}.

(** The value of [SignatureHelp.activeSignature]: the code tests it against
    [null] and otherwise indexes with it. *)
Inductive ActiveIndex : Type :=
| IndexNull
| IndexUndefined
| IndexNumber (n : Z).

Record SignatureHelp : Type := {
  help_signatures : list SignatureInformation;
  help_activeSignature : ActiveIndex;
  help_activeParameter : ActiveIndex
}.

(** ** Editor state *)

(** [interface SignatureChangeEffect] *)
Record SignatureChangeEffect : Type := {
  eff_pos : Z;
  eff_result : option SignatureHelp
}.

(** The tooltip installed by [reduceSignatureHelpState].  Its [create]
    member is a closure over [result]; the record keeps the captured value
    and [tooltip_create] below runs the closure's body. *)
Record Tooltip : Type := {
  tt_pos : Z;
  tt_above : bool;
  tt_create : SignatureHelp
}.

(** [interface SignatureHelpState] *)
Record SignatureHelpState : Type := {
  st_tooltip : option Tooltip;
  st_result : option SignatureHelp
}.

(** Effects carried by a transaction: [setSignatureHelpEffect.of(v)], or an
    effect of some other type. *)
Inductive StateEffect : Type :=
| setSignatureHelpEffect (v : SignatureChangeEffect)
| otherEffect (tag : nat).

(** [StateField.define({ create: ... })] *)
Definition create : SignatureHelpState :=
  {| st_tooltip := None; st_result := None |}.

Definition reduceSignatureHelpState
  (state : SignatureHelpState) (effect : SignatureChangeEffect)
  : SignatureHelpState :=
  if is_some (st_tooltip state) && negb (is_some (eff_result effect)) then
    {| st_tooltip := None; st_result := None |}
  else
    match eff_result effect with
    | Some result =>
        {| st_tooltip := Some {| tt_pos := eff_pos effect;
                                 tt_above := true;
                                 tt_create := result |};
           st_result := Some result |}
    | None => state
    end.

(** [StateField.define({ update(state, tr) ... })] over [tr.effects]: the
    first [setSignatureHelpEffect] decides. *)
Fixpoint update (state : SignatureHelpState) (effects : list StateEffect)
  : SignatureHelpState :=
  match effects with
  | [] => state
  | setSignatureHelpEffect v :: _ => reduceSignatureHelpState state v
  | otherEffect _ :: rest => update state rest
  end.

(** [provide: (f) => showTooltip.from(f, (val) => val.tooltip)] *)
Definition provide (val : SignatureHelpState) : option Tooltip :=
  st_tooltip val.

(** States the field can hold: [create], then any number of transactions. *)
Inductive reachable : SignatureHelpState -> Prop :=
| reachable_create : reachable create
| reachable_update (s : SignatureHelpState) (effects : list StateEffect) :
    reachable s -> reachable (update s effects).

(** The field invariant: [tooltip] is [null] exactly when [result] is. *)
Definition tooltip_iff_result (s : SignatureHelpState) : Prop :=
  st_tooltip s = None <-> st_result s = None.

(** ** The view plugin *)

(** What [SignatureHelpView.update] reads of a transaction: its user-event
    annotation and, for each changed range, the inserted text. *)
Record Transaction : Type := {
  tr_userEvent : option string;
  tr_inserted : list string
}.

(** What [update] destructures of a [ViewUpdate]. *)
Record ViewUpdate : Type := {
  docChanged : bool;
  selectionSet : bool;
  transactions : list Transaction
}.

(** CodeMirror's [Transaction.isUserEvent(event)]: the annotation equals
    [event] or starts with [event] followed by a dot. *)
Definition isUserEvent (tr : Transaction) (event : string) : bool :=
  match tr_userEvent tr with
  | None => false
  | Some e => String.eqb e event || String.prefix (event ++ ".") e
  end.

(** [transactions[transactions.length - 1]] *)
Definition last_transaction (trs : list Transaction) : option Transaction :=
  array_get trs (Z.of_nat (List.length trs) - 1).

(** [SignatureHelpView.update]: the number of calls of
    [triggerSignatureHelpRequest] it makes, [field] being the value of
    [this.view.state.field(signatureHelpTooltipField)]. *)
Definition view_update (field : SignatureHelpState) (u : ViewUpdate)
  : Completion nat :=
  if (docChanged u || selectionSet u) && is_some (st_tooltip field) then
    Return 1%nat
  else if docChanged u then
    match last_transaction (transactions u) with
    | None => Throw TypeError
    | Some last =>
        if isUserEvent last "input" then
          Return (List.length
                    (filter (fun inserted => endsWith inserted "()")
                            (tr_inserted last)))
        else Return 0%nat
    end
  else Return 0%nat.

(** The outcome of [connection.sendRequest(SignatureHelpRequest.type, _)]. *)
Inductive Response : Type :=
| Resolved (result : option SignatureHelp)
| Rejected (e : JsError).

(** [triggerSignatureHelpRequest]: the effects of the transaction it
    dispatches once the request settles; [pos] is the selection head read
    before the request. *)
Definition triggerSignatureHelpRequest (pos : Z) (r : Response)
  : list StateEffect :=
  match r with
  | Resolved result =>
      [setSignatureHelpEffect {| eff_pos := pos; eff_result := result |}]
  | Rejected _ =>
      [setSignatureHelpEffect {| eff_pos := pos; eff_result := None |}]
  end.

(** ** Rendering *)

Inductive Node : Type :=
| TextNode (data : string)
| Element (tagName className : string) (children : list Node).

Section Rendering.

(** Imported from [./names] and [./documentation]; [intl] is already
    applied to [wrapWithDocumentationButton]. *)
Variable nameFromSignature : string -> string.
Variable removeFullyQualifiedName : string -> string.
Variable renderDocumentation : option Documentation -> bool -> Node.
Variable wrapWithDocumentationButton : Node -> string -> Node.

Definition formatHighlightedParameter
  (label : string) (from to : Z) (activeParameterDoc : option Documentation)
  : Node :=
  let before := js_substring label 0 from in
  let id := nameFromSignature before in
  let parameter := js_substring label from to in
  let after := js_substring_from label to in
  let before := removeFullyQualifiedName before in
  let code :=
    Element "code" ""
      [ TextNode before;
        Element "span" "cm-signature-activeParameter" [TextNode parameter];
        TextNode after ] in
  let documentation := renderDocumentation activeParameterDoc true in
  let parent := Element "div" "docs-markdown" [code; documentation] in
  wrapWithDocumentationButton parent id.

(** [signatures[0]] when [activeSignature] is [null], otherwise
    [signatures[activeSignature]]. *)
Definition active_signature (help : SignatureHelp)
  : option SignatureInformation :=
  match help_activeSignature help with
  | IndexNull => array_get (help_signatures help) 0
  | IndexNumber n => array_get (help_signatures help) n
  | IndexUndefined => None
  end.

(** [activeParameterIndex !== undefined && parameters
      ? parameters[activeParameterIndex] : undefined] *)
Definition active_parameter (sig : SignatureInformation)
  : option ParameterInformation :=
  match sig_activeParameter sig, sig_parameters sig with
  | Some i, Some parameters => array_get parameters i
  | _, _ => None
  end.

Definition doc_truthy (d : Documentation) : bool :=
  match d with
  | DocString s => negb (String.eqb s "")
  | DocMarkup _ _ => true
  end.

(** [activeParameter?.documentation || activeSignature.documentation] *)
Definition active_parameter_doc
  (activeParameter : option ParameterInformation)
  (activeSignature : SignatureInformation) : option Documentation :=
  match activeParameter with
  | Some p =>
      match param_documentation p with
      | Some d => if doc_truthy d then Some d
                  else sig_documentation activeSignature
      | None => sig_documentation activeSignature
      end
  | None => sig_documentation activeSignature
  end.

Definition formatSignatureHelp (help : SignatureHelp) : Completion Node :=
  match active_signature help with
  | None => Throw TypeError
  | Some activeSignature =>
      let label := sig_label activeSignature in
      let activeParameter := active_parameter activeSignature in
      let activeParameterDoc :=
        active_parameter_doc activeParameter activeSignature in
      match option_map param_label activeParameter with
      | Some (LabelOffsets from to) =>
          Return (formatHighlightedParameter label from to
                    activeParameterDoc)
      | Some (LabelString _) => Throw (Error "Not supported")
      | None =>
          let len := Z.of_nat (String.length label) in
          Return (formatHighlightedParameter label len len
                    activeParameterDoc)
      end
  end.

(** The [create] member of the tooltip: a [div.cm-signature-tooltip]
    around the formatted help. *)
Definition tooltip_create (t : Tooltip) : Completion Node :=
  content <- formatSignatureHelp (tt_create t) ;;
  Return (Element "div" "cm-signature-tooltip" [content]).

End Rendering.

(** ** Runs of the request protocol *)

(** [effect.is(setSignatureHelpEffect)] *)
Definition is_setSignatureHelpEffect (effect : StateEffect) : bool :=
  match effect with
  | setSignatureHelpEffect _ => true
  | otherEffect _ => false
  end.

(** One request settling: the transaction [triggerSignatureHelpRequest]
    dispatches for the position it read and the response it got, applied to
    the field. *)
Definition settle (state : SignatureHelpState) (r : Z * Response)
  : SignatureHelpState :=
  update state (triggerSignatureHelpRequest (fst r) (snd r)).

(** Requests settling one after the other, in the order the responses
    arrive. *)
Definition settle_all (state : SignatureHelpState) (rs : list (Z * Response))
  : SignatureHelpState :=
  fold_left settle rs state.

End SignatureHelp.

(** * Settings *)

Module Settings.

(** ** Values of type [unknown] *)

(** Numbers: the integers, with the three special values.  Font sizes are
    whole points throughout the program. *)
Inductive JsNumber : Type :=
| NaN
| Infinity
| NegInfinity
| Num (n : Z).

(** An object is its list of own properties in insertion order; an array is
    an object too, [typeof] and property lookup by name do not tell them
    apart. *)
Inductive JsValue : Type :=
| JUndefined
| JNull
| JBoolean (b : bool)
| JNumber (n : JsNumber)
| JString (s : string)
| JFunction
| JObject (properties : list (string * JsValue)).

Definition typeof (v : JsValue) : string :=
  match v with
  | JUndefined => "undefined"
  | JNull => "object"
  | JBoolean _ => "boolean"
  | JNumber _ => "number"
  | JString _ => "string"
  | JFunction => "function"
  | JObject _ => "object"
  end.

(** ToBoolean *)
Definition truthy (v : JsValue) : bool :=
  match v with
  | JUndefined | JNull => false
  | JBoolean b => b
  | JNumber NaN => false
  | JNumber (Num n) => negb (n =? 0)
  | JNumber _ => true
  | JString s => negb (String.eqb s "")
  | JFunction | JObject _ => true
  end.

Fixpoint lookup (name : string) (properties : list (string * JsValue))
  : option JsValue :=
  match properties with
  | [] => None
  | (k, v) :: rest => if String.eqb k name then Some v else lookup name rest
  end.

(** [value.name]: a [TypeError] on [null] and [undefined], [undefined] for
    a property the value does not have. *)
Definition get (value : JsValue) (name : string) : Completion JsValue :=
  match value with
  | JUndefined | JNull => Throw TypeError
  | JObject properties =>
      match lookup name properties with
      | Some v => Return v
      | None => Return JUndefined
      end
  | _ => Return JUndefined
  end.

(** [s === v] for a string [s]. *)
Definition strict_equals_string (s : string) (v : JsValue) : bool :=
  match v with
  | JString t => String.eqb s t
  | _ => false
  end.

(** [arr.indexOf(v)] on an array of strings, counting from [i]. *)
Fixpoint indexOf_from (arr : list string) (v : JsValue) (i : Z) : Z :=
  match arr with
  | [] => -1
  | a :: rest =>
      if strict_equals_string a v then i else indexOf_from rest v (i + 1)
  end.

Definition indexOf (arr : list string) (v : JsValue) : Z :=
  indexOf_from arr v 0.

(** [{ ...object, [name]: v }]: the property keeps its place when the object
    has it, and is added last otherwise. *)
Fixpoint set_property (name : string) (v : JsValue)
  (properties : list (string * JsValue)) : list (string * JsValue) :=
  match properties with
  | [] => [(name, v)]
  | (k, w) :: rest =>
      if String.eqb k name then (k, v) :: rest
      else (k, w) :: set_property name v rest
  end.

(** [delete object[name]] *)
Definition delete_property (name : string)
  (properties : list (string * JsValue)) : list (string * JsValue) :=
  filter (fun kv => negb (String.eqb (fst kv) name)) properties.

(** ** The settings module *)

Record Language : Type := {
  id : string;
  name : string
}.

Inductive CodeStructureOption : Type := none | full | simple.

Definition option_string (o : CodeStructureOption) : string :=
  match o with
  | none => "none"
  | full => "full"
  | simple => "simple"
  end.

Definition codeStructureOptions : list string :=
  [option_string none; option_string full; option_string simple].

Definition minimumFontSize : Z := 4.
Definition maximumFontSize : Z := 154.
Definition fontSizeStep : Z := 3.

(** [interface Settings] *)
Record Settings : Type := {
  languageId : string;
  fontSize : JsNumber;
  codeStructureHighlight : CodeStructureOption
}.

(** A [Settings] record as the object it is at run time. *)
Definition Settings_value (s : Settings) : JsValue :=
  JObject [ ("languageId", JString (languageId s));
            ("fontSize", JNumber (fontSize s));
            ("codeStructureHighlight",
             JString (option_string (codeStructureHighlight s))) ].

Section Environment.

(** [stage] of [../environment], [process.env.NODE_ENV] and
    [defaultCodeFontSizePt] of [../deployment/misc]. *)
Variable stage : string.
Variable NODE_ENV : option string.
Variable defaultCodeFontSizePt : JsNumber.

Definition is_production : bool :=
  match NODE_ENV with
  | Some e => String.eqb e "production"
  | None => false
  end.

Definition supportedLanguages : list Language :=
  {| id := "en"; name := "English" |}
  :: (if String.eqb stage "REVIEW" || negb is_production
      then [ {| id := "lol"; name := "Translation test" |} ]
      else []).

Definition defaultSettings : Completion Settings :=
  match array_get supportedLanguages 0 with
  | None => Throw TypeError
  | Some l =>
      Return {| languageId := id l;
                fontSize := defaultCodeFontSizePt;
                codeStructureHighlight := full |}
  end.

Definition isValidSettingsObject (value : JsValue) : Completion bool :=
  if negb (String.eqb (typeof value) "object") then Return false
  else
    languageId <- get value "languageId" ;;
    if truthy languageId
       && negb (is_some (find (fun x => strict_equals_string (id x) languageId)
                              supportedLanguages))
    then Return false
    else
      codeStructureHighlight <- get value "codeStructureHighlight" ;;
      if indexOf codeStructureOptions codeStructureHighlight =? -1
      then Return false
      else Return true.

(** [value.name] read as a plain property: [undefined] when the value is
    not an object or lacks the property. *)
Definition property (value : JsValue) (name : string) : JsValue :=
  match value with
  | JObject properties =>
      match lookup name properties with
      | Some v => v
      | None => JUndefined
      end
  | _ => JUndefined
  end.

Definition is_object (value : JsValue) : bool :=
  match value with
  | JObject _ => true
  | _ => false
  end.

(** The malformations the specification lists, in its words: a
    [languageId] that is set but is not a supported language id, and a
    [codeStructureHighlight] that is not one of the three options. *)
Definition languageId_unsupported (value : JsValue) : bool :=
  truthy (property value "languageId")
  && negb (existsb (fun x => strict_equals_string (id x)
                               (property value "languageId"))
                   supportedLanguages).

Definition codeStructureHighlight_unknown (value : JsValue) : bool :=
  negb (existsb (fun o => strict_equals_string o
                            (property value "codeStructureHighlight"))
                codeStructureOptions).

(** The Settings shape in the words of the specification: an object whose
    [languageId] is the id of a supported language, whose [fontSize] is a
    number and whose [codeStructureHighlight] is one of the three
    options. *)
Definition matches_Settings_shape (value : JsValue) : bool :=
  match value with
  | JObject properties =>
      match lookup "languageId" properties with
      | Some (JString l) =>
          existsb (fun x => String.eqb (id x) l) supportedLanguages
      | _ => false
      end
      && match lookup "fontSize" properties with
         | Some (JNumber _) => true
         | _ => false
         end
      && match lookup "codeStructureHighlight" properties with
         | Some (JString o) => existsb (String.eqb o) codeStructureOptions
         | _ => false
         end
  | _ => false
  end.

End Environment.

(** [CodeStructureSettings] of [../editor/codemirror/structure-highlighting],
    as far as the presets fill it in. *)
Record CodeStructureSettings : Type := {
  shape : string;
  background : string;
  borders : string;
  cursorBackground : bool;
  cursorBorder : string
}.

(** The presets; ["full"] shares the [default] branch of the switch. *)
Definition codeStructureSettings (settings : Settings)
  : CodeStructureSettings :=
  match codeStructureHighlight settings with
  | none =>
      {| shape := "box";
         background := "none";
         borders := "none";
         cursorBackground := false;
         cursorBorder := "none" |}
  | simple =>
      {| shape := "l-shape";
         background := "none";
         borders := "left-edge-only";
         cursorBackground := false;
         cursorBorder := "none" |}
  | full =>
      {| shape := "l-shape";
         background := "block";
         borders := "none";
         cursorBackground := true;
         cursorBorder := "left-edge-only" |}
  end.

End Settings.

(** * Router *)

Module Router.

(** ** Browser built-ins

    Strings stand for their UTF-8 form, one character a byte, which is what
    [encodeURIComponent] and the query-string parser work on.  A string
    with a lone surrogate has no such form ([encodeURIComponent] throws a
    [URIError] on it) and is not represented; bytes that are not UTF-8,
    which the parser would replace, are read as they are. *)

Definition hex_digit (n : nat) : ascii :=
  ascii_of_nat (if Nat.ltb n 10 then 48 + n else 55 + n).

(** The value of a hexadecimal digit, of either case. *)
Definition hex_value (c : ascii) : option nat :=
  let n := nat_of_ascii c in
  if Nat.leb 48 n && Nat.leb n 57 then Some (n - 48)%nat
  else if Nat.leb 65 n && Nat.leb n 70 then Some (n - 55)%nat
  else if Nat.leb 97 n && Nat.leb n 102 then Some (n - 87)%nat
  else None.

(** Characters [encodeURIComponent] leaves alone: letters, digits and
    [- _ . ! ~ * ' ( )]. *)
Definition unreserved (c : ascii) : bool :=
  let n := nat_of_ascii c in
  (Nat.leb 65 n && Nat.leb n 90) || (Nat.leb 97 n && Nat.leb n 122)
  || (Nat.leb 48 n && Nat.leb n 57)
  || existsb (Nat.eqb n) [45; 95; 46; 33; 126; 42; 39; 40; 41]%nat.

(** One character of [encodeURIComponent]'s output: itself, or [%XY] in
    upper-case hexadecimal. *)
Definition encode_char (c : ascii) : string :=
  if unreserved c then String c EmptyString
  else
    let n := nat_of_ascii c in
    String "%" (String (hex_digit (n / 16))
                  (String (hex_digit (n mod 16)) EmptyString)).

Fixpoint encodeURIComponent (s : string) : string :=
  match s with
  | EmptyString => EmptyString
  | String c rest => encode_char c ++ encodeURIComponent rest
  end.

(** Percent-decoding: [%XY] with two hexadecimal digits is one byte, any
    other character stands for itself. *)
Fixpoint percent_decode (s : string) : string :=
  match s with
  | EmptyString => EmptyString
  | String c s1 =>
      let keep := String c (percent_decode s1) in
      if Ascii.eqb c "%" then
        match s1 with
        | String h s2 =>
            match s2 with
            | String l s3 =>
                match hex_value h, hex_value l with
                | Some x, Some y =>
                    String (ascii_of_nat (16 * x + y)) (percent_decode s3)
                | _, _ => keep
                end
            | EmptyString => keep
            end
        | EmptyString => keep
        end
      else keep
  end.

(** [s.split(sep)] for a one-character separator. *)
Fixpoint split (sep : ascii) (s : string) : list string :=
  match s with
  | EmptyString => [EmptyString]
  | String c rest =>
      if Ascii.eqb c sep then EmptyString :: split sep rest
      else
        match split sep rest with
        | piece :: pieces => String c piece :: pieces
        | [] => [String c EmptyString]
        end
  end.

(** A name-value sequence cut at its first [=]; without one the value is
    empty. *)
Fixpoint split_pair (s : string) : string * string :=
  match s with
  | EmptyString => (EmptyString, EmptyString)
  | String c rest =>
      if Ascii.eqb c "=" then (EmptyString, rest)
      else let (name, value) := split_pair rest in (String c name, value)
  end.

Fixpoint plus_to_space (s : string) : string :=
  match s with
  | EmptyString => EmptyString
  | String c rest =>
      String (if Ascii.eqb c "+" then " "%char else c) (plus_to_space rest)
  end.

Definition is_empty (s : string) : bool :=
  match s with
  | EmptyString => true
  | String _ _ => false
  end.

(** [new URLSearchParams(search)]: a leading [?] is dropped, the rest is cut
    at [&], empty sequences are skipped, and each name and value is decoded
    after [+] is turned into a space. *)
Definition URLSearchParams (search : string) : list (string * string) :=
  let input :=
    match search with
    | String "?" rest => rest
    | _ => search
    end in
  map (fun sequence =>
         let (name, value) := split_pair sequence in
         (percent_decode (plus_to_space name),
          percent_decode (plus_to_space value)))
      (filter (fun sequence => negb (is_empty sequence)) (split "&" input)).

(** [params.get(name)]: the first value of that name, or [null]. *)
Fixpoint params_get (params : list (string * string)) (name : string)
  : option string :=
  match params with
  | [] => None
  | (k, v) :: rest => if String.eqb k name then Some v else params_get rest name
  end.

(** ** Router state *)

Record Anchor : Type := { id : string }.

(** [keyof RouterState] *)
Inductive RouterKey : Type := tab | explore | reference.

Definition key_name (k : RouterKey) : string :=
  match k with
  | tab => "tab"
  | explore => "explore"
  | reference => "reference"
  end.

Definition key_eqb (a b : RouterKey) : bool :=
  match a, b with
  | tab, tab | explore, explore | reference, reference => true
  | _, _ => false
  end.

(** A property value of a router state: [string | Anchor | undefined]. *)
Inductive RouterValue : Type :=
| VUndefined
| VString (s : string)
| VAnchor (a : Anchor).

(** A router state is an object: its own properties in insertion order. *)
Definition RouterState : Type := list (RouterKey * RouterValue).

(** [state[key]] *)
Fixpoint state_get (state : RouterState) (key : RouterKey) : RouterValue :=
  match state with
  | [] => VUndefined
  | (k, v) :: rest => if key_eqb k key then v else state_get rest key
  end.

(** [{ ...state, [key]: value }] *)
Fixpoint state_set (state : RouterState) (key : RouterKey)
  (value : RouterValue) : RouterState :=
  match state with
  | [] => [(key, value)]
  | (k, v) :: rest =>
      if key_eqb k key then (k, value) :: rest
      else (k, v) :: state_set rest key value
  end.

(** [interface RouterState]: each property once, [tab] a string, [explore]
    and [reference] anchors, any of them possibly [undefined]. *)
Definition well_typed (key : RouterKey) (value : RouterValue) : bool :=
  match key, value with
  | _, VUndefined => true
  | tab, VString _ => true
  | explore, VAnchor _ | reference, VAnchor _ => true
  | _, _ => false
  end.

Fixpoint is_RouterState (state : list (RouterKey * RouterValue)) : bool :=
  match state with
  | [] => true
  | (k, v) :: rest =>
      well_typed k v
      && negb (existsb (fun kv => key_eqb (fst kv) k) rest)
      && is_RouterState rest
  end.

(** [class RouterParam<T>] with its three instances. *)
Record RouterParam : Type := { param_id : RouterKey }.

Definition RouterParam_tab : RouterParam := {| param_id := tab |}.
Definition RouterParam_reference : RouterParam := {| param_id := reference |}.
Definition RouterParam_explore : RouterParam := {| param_id := explore |}.

(** [RouterParam.get] *)
Definition get (param : RouterParam) (state : RouterState) : RouterValue :=
  state_get state (param_id param).

Definition anchorForParam (param : option string) : RouterValue :=
  match param with
  | Some p => if is_empty p then VUndefined else VAnchor {| id := p |}
  | None => VUndefined
  end.

Definition parse (search : string) : RouterState :=
  let params := URLSearchParams search in
  [ (tab, match params_get params "tab" with
          | Some s => VString s
          | None => VUndefined
          end);
    (reference, anchorForParam (params_get params "reference"));
    (explore, anchorForParam (params_get params "explore")) ].

(** [typeof value === "string" ? value : value.id] *)
Definition serializeValue (value : RouterValue) : Completion string :=
  match value with
  | VString s => Return s
  | VAnchor a => Return (id a)
  | VUndefined => Throw TypeError
  end.

(** [!!v] *)
Definition truthy (v : RouterValue) : bool :=
  match v with
  | VUndefined => false
  | VString s => negb (is_empty s)
  | VAnchor _ => true
  end.

(** [array.map(f)] for a callback that may throw. *)
Fixpoint map_completion {A B : Type} (f : A -> Completion B) (l : list A)
  : Completion (list B) :=
  match l with
  | [] => Return []
  | a :: rest =>
      b <- f a ;;
      bs <- map_completion f rest ;;
      Return (b :: bs)
  end.

(** The [query] string computed by [navigate]. *)
Definition navigate_query (newState : RouterState) : Completion string :=
  parts <- map_completion
             (fun kv =>
                value <- serializeValue (snd kv) ;;
                Return (encodeURIComponent (key_name (fst kv)) ++ "="
                        ++ encodeURIComponent value))
             (filter (fun kv => truthy (snd kv)) newState) ;;
  Return (String.concat "&" parts).

(** [window.location.toString().split("?")[0] + (query ? "?" + query : "")] *)
Definition navigate_url (href query : string) : string :=
  hd EmptyString (split "?" href)
  ++ (if is_empty query then EmptyString else String "?" query).

(** [navigate]: the URL pushed onto the history and the state handed to
    [setState]. *)
Definition navigate (href : string) (newState : RouterState)
  : Completion (string * RouterState) :=
  query <- navigate_query newState ;;
  Return (navigate_url href query, newState).

(** [useRouterParam(param)], given the [state] and [setState] of
    [useRouterState]: the current value and the setter. *)
Definition navigateParam {R : Type} (state : RouterState)
  (setState : RouterState -> R) (param : RouterParam) (value : RouterValue)
  : R :=
  setState (state_set state (param_id param) value).

Definition useRouterParam {R : Type} (state : RouterState)
  (setState : RouterState -> R) (param : RouterParam)
  : RouterValue * (RouterValue -> R) :=
  (get param state, navigateParam state setState param).

(** ** Notions used to state the router's properties *)

(** [c] does not occur in [s]. *)
Fixpoint lacks (c : ascii) (s : string) : bool :=
  match s with
  | EmptyString => true
  | String d rest => negb (Ascii.eqb d c) && lacks c rest
  end.

(** The characters that structure a URL's query. *)
Definition delimiter (d : ascii) : Prop :=
  d = "&"%char \/ d = "="%char \/ d = "+"%char \/ d = "?"%char.

(** The string a value is written as in the URL. *)
Definition value_text (v : RouterValue) : string :=
  match v with
  | VUndefined => EmptyString
  | VString s => s
  | VAnchor a => id a
  end.

(** A value that is [undefined] or carries a non-empty string: a non-empty
    tab name, an anchor with a non-empty id. *)
Definition nonempty_value (v : RouterValue) : bool :=
  match v with
  | VUndefined => true
  | VString s => negb (is_empty s)
  | VAnchor a => negb (is_empty (id a))
  end.

(** What [navigate] writes for one entry: [name=value], both encoded. *)
Definition query_part (kv : RouterKey * RouterValue) : string :=
  encodeURIComponent (key_name (fst kv))
  ++ String "=" (encodeURIComponent (value_text (snd kv))).

(** The parameter the browser reads back from one written entry. *)
Definition param_of (kv : RouterKey * RouterValue) : string * string :=
  (key_name (fst kv), value_text (snd kv)).

(** The first entry of a property list under [key], if any. *)
Fixpoint entry_get (entries : list (RouterKey * RouterValue)) (key : RouterKey)
  : option RouterValue :=
  match entries with
  | [] => None
  | (k, v) :: rest => if key_eqb k key then Some v else entry_get rest key
  end.

(** What is left of a value after a trip through the URL: an empty tab
    name and an anchor with an empty id come back as [undefined]. *)
Definition through_url (v : RouterValue) : RouterValue :=
  if nonempty_value v then v else VUndefined.

End Router.

(** * Sample values *)

Module Samples.

Import SignatureHelp.

(** [print(value, sep)] with the first parameter active and labelled by
    offsets. *)
Definition print_signature : SignatureInformation :=
  {| sig_label := "print(value, sep)";
     sig_documentation := Some (DocString "Print a value.");
     sig_parameters :=
       Some [ {| param_label := LabelOffsets 6 11;
                 param_documentation := None |};
              {| param_label := LabelOffsets 13 16;
                 param_documentation := None |} ];
     sig_activeParameter := Some 0 |}.

Definition print_help : SignatureHelp :=
  {| help_signatures := [print_signature];
     help_activeSignature := IndexNumber 0;
     help_activeParameter := IndexNumber 0 |}.

(** The same signature from a server that labels parameters by name. *)
Definition named_signature : SignatureInformation :=
  {| sig_label := "print(value, sep)";
     sig_documentation := None;
     sig_parameters :=
       Some [ {| param_label := LabelString "value";
                 param_documentation := None |} ];
     sig_activeParameter := Some 0 |}.

Definition named_help : SignatureHelp :=
  {| help_signatures := [named_signature];
     help_activeSignature := IndexNull;
     help_activeParameter := IndexNull |}.

Definition empty_help : SignatureHelp :=
  {| help_signatures := [];
     help_activeSignature := IndexNull;
     help_activeParameter := IndexNull |}.

(** A state showing [print_help] at offset 6. *)
Definition showing_state : SignatureHelpState :=
  reduceSignatureHelpState create
    {| eff_pos := 6; eff_result := Some print_help |}.

(** A record of the state type that no transaction produces: a result
    without a tooltip. *)
Definition result_without_tooltip : SignatureHelpState :=
  {| st_tooltip := None; st_result := Some print_help |}.

Definition null_effect : SignatureChangeEffect :=
  {| eff_pos := 6; eff_result := None |}.

(** Typing [print()] with bracket completion. *)
Definition typed_call : ViewUpdate :=
  {| docChanged := true;
     selectionSet := true;
     transactions :=
       [ {| tr_userEvent := Some "input.type"; tr_inserted := ["()"] |} ] |}.

(** A view update that changes neither document nor selection. *)
Definition focus_update : ViewUpdate :=
  {| docChanged := false;
     selectionSet := false;
     transactions :=
       [ {| tr_userEvent := None; tr_inserted := [] |} ] |}.

(** Stand-ins for the helpers of [./names] and [./documentation], to run
    the formatter on the samples: the name is the text before the bracket,
    documentation is a paragraph, the button wrapper adds a [div]. *)
Definition nameFromSignature (before : string) : string :=
  hd EmptyString (Router.split "(" before).

Definition removeFullyQualifiedName (before : string) : string := before.

Definition renderDocumentation (doc : option Documentation) (first : bool)
  : Node :=
  match doc with
  | Some (DocString s) => Element "p" "" [TextNode s]
  | Some (DocMarkup _ value) => Element "p" "" [TextNode value]
  | None => Element "p" "" []
  end.

Definition wrapWithDocumentationButton (parent : Node) (id : string) : Node :=
  Element "div" "docs-button-wrapper" [parent; TextNode id].

Definition format : SignatureHelp -> Completion Node :=
  formatSignatureHelp nameFromSignature removeFullyQualifiedName
    renderDocumentation wrapWithDocumentationButton.

(** A production build: English only, 16 pt code. *)
Definition stage : string := "PRODUCTION".
Definition NODE_ENV : option string := Some "production".
Definition defaultCodeFontSizePt : Settings.JsNumber := Settings.Num 16.

(** The validator and the Settings shape of that build. *)
Definition isValidSettingsObject : Settings.JsValue -> Completion bool :=
  Settings.isValidSettingsObject stage NODE_ENV.

Definition matches_Settings_shape : Settings.JsValue -> bool :=
  Settings.matches_Settings_shape stage NODE_ENV.

(** [{ codeStructureHighlight: "full" }] *)
Definition highlight_only : Settings.JsValue :=
  Settings.JObject [("codeStructureHighlight", Settings.JString "full")].

(** Complete settings in a language the editor does not support. *)
Definition french_settings : Settings.JsValue :=
  Settings.JObject [ ("languageId", Settings.JString "fr");
                     ("fontSize", Settings.JNumber (Settings.Num 16));
                     ("codeStructureHighlight", Settings.JString "full") ].

(** Complete settings in English. *)
Definition english_settings : Settings.JsValue :=
  Settings.JObject [ ("languageId", Settings.JString "en");
                     ("fontSize", Settings.JNumber (Settings.Num 16));
                     ("codeStructureHighlight", Settings.JString "simple") ].

(** The reference panel open at an anchor whose id needs escaping. *)
Definition docs_state : Router.RouterState :=
  [ (Router.tab, Router.VString "reference");
    (Router.explore, Router.VUndefined);
    (Router.reference, Router.VAnchor {| Router.id := "a&b=c d+e/%41?" |}) ].

(** [{ tab: "" }] *)
Definition empty_tab_state : Router.RouterState :=
  [ (Router.tab, Router.VString "") ].

(** [{ reference: { id: "" } }] *)
Definition empty_anchor_state : Router.RouterState :=
  [ (Router.reference, Router.VAnchor {| Router.id := "" |}) ].

(** A signature without parameter information. *)
Definition input_signature : SignatureInformation :=
  {| sig_label := "input(prompt)";
     sig_documentation := Some (DocString "Read a line.");
     sig_parameters := None;
     sig_activeParameter := None |}.

Definition input_help : SignatureHelp :=
  {| help_signatures := [input_signature];
     help_activeSignature := IndexNull;
     help_activeParameter := IndexNull |}.


(** Pasting text that is no call, by a user-input transaction. *)
Definition paste_update : ViewUpdate :=
  {| docChanged := true;
     selectionSet := true;
     transactions :=
       [ {| tr_userEvent := Some "input.paste"; tr_inserted := ["x = 1"] |} ] |}.

(** Moving the cursor. *)
Definition cursor_update : ViewUpdate :=
  {| docChanged := false;
     selectionSet := true;
     transactions :=
       [ {| tr_userEvent := Some "select"; tr_inserted := [] |} ] |}.

(** Settings saved by a review build, in the test language. *)
Definition test_language_settings : Settings.JsValue :=
  Settings.JObject [ ("languageId", Settings.JString "lol");
                     ("fontSize", Settings.JNumber (Settings.Num 16));
                     ("codeStructureHighlight", Settings.JString "none") ].

End Samples.

(** * The signature-help field *)

Section SignatureHelpField.

Import SignatureHelp.

(** The state installed for a result [r] at [pos]. *)
Lemma reduce_installs (s : SignatureHelpState) (pos : Z) (r : SignatureHelp) :
  reduceSignatureHelpState s {| eff_pos := pos; eff_result := Some r |}
  = {| st_tooltip := Some {| tt_pos := pos; tt_above := true; tt_create := r |};
       st_result := Some r |}.
Proof.
  unfold reduceSignatureHelpState; simpl.
  now rewrite andb_false_r.
Qed.

(** Without a result the tooltip goes, whatever the state was. *)
Lemma reduce_null_tooltip (s : SignatureHelpState) (pos : Z) :
  st_tooltip (reduceSignatureHelpState s {| eff_pos := pos; eff_result := None |})
  = None.
Proof.
  unfold reduceSignatureHelpState; simpl.
  destruct (st_tooltip s) as [t|] eqn:Ht; simpl.
  - reflexivity.
  - exact Ht.
Qed.

(** The tooltip half of the new state never depends on the old state. *)
Lemma reduce_tooltip_independent (s1 s2 : SignatureHelpState)
  (e : SignatureChangeEffect) :
  st_tooltip (reduceSignatureHelpState s1 e)
  = st_tooltip (reduceSignatureHelpState s2 e).
Proof.
  destruct e as [pos [r|]].
  - now rewrite !reduce_installs.
  - now rewrite !reduce_null_tooltip.
Qed.

Lemma reduce_preserves_invariant (s : SignatureHelpState)
  (e : SignatureChangeEffect) :
  tooltip_iff_result s -> tooltip_iff_result (reduceSignatureHelpState s e).
Proof.
  intros Hs. destruct e as [pos [r|]].
  - rewrite reduce_installs. split; discriminate.
  - unfold reduceSignatureHelpState; simpl.
    destruct (st_tooltip s) eqn:Ht; simpl.
    + split; reflexivity.
    + exact Hs.
Qed.

(** A transaction leaves the field alone or reduces it with one of its
    effects. *)
Lemma update_cases (s : SignatureHelpState) (effects : list StateEffect) :
  update s effects = s
  \/ exists v, In (setSignatureHelpEffect v) effects
               /\ update s effects = reduceSignatureHelpState s v.
Proof.
  induction effects as [|[v|tag] rest IH]; simpl.
  - now left.
  - right. exists v. split; [now left | reflexivity].
  - destruct IH as [IH|[v [Hin Hv]]].
    + now left.
    + right. exists v. split; [now right | exact Hv].
Qed.

Lemma update_preserves_invariant (s : SignatureHelpState)
  (effects : list StateEffect) :
  tooltip_iff_result s -> tooltip_iff_result (update s effects).
Proof.
  intros Hs. destruct (update_cases s effects) as [->|[v [_ ->]]].
  - exact Hs.
  - now apply reduce_preserves_invariant.
Qed.

Lemma reachable_invariant (s : SignatureHelpState) :
  reachable s -> tooltip_iff_result s.
Proof.
  induction 1 as [|s effects _ IH].
  - split; reflexivity.
  - now apply update_preserves_invariant.
Qed.

(** Under the invariant, a state without a tooltip is the initial state. *)
Lemma no_tooltip_is_create (s : SignatureHelpState) :
  tooltip_iff_result s -> st_tooltip s = None -> s = create.
Proof.
  intros [Hs _] Ht. specialize (Hs Ht).
  destruct s as [t r]; simpl in *. now subst.
Qed.

(** C1. A failed signature-help request clears the tooltip: the catch branch
    of [triggerSignatureHelpRequest] dispatches a [setSignatureHelpEffect]
    with a null result, and from every field state both
    [reduceSignatureHelpState] and the field's [update] over that
    transaction give a state whose tooltip is null, so no tooltip is
    provided. *)
Theorem failed_request_clears_tooltip :
  forall (state : SignatureHelpState) (pos : Z) (e : JsError),
    triggerSignatureHelpRequest pos (Rejected e)
    = [setSignatureHelpEffect {| eff_pos := pos; eff_result := None |}]
    /\ st_tooltip (reduceSignatureHelpState state
                     {| eff_pos := pos; eff_result := None |}) = None
    /\ provide (update state (triggerSignatureHelpRequest pos (Rejected e)))
       = None.
Proof.
  intros state pos e. split; [reflexivity|].
  split; [apply reduce_null_tooltip|].
  unfold provide; simpl. apply reduce_null_tooltip.
Qed.

(** A record holding a result without a tooltip is no state of the field:
    no run of transactions from [create] produces it. *)
Lemma result_without_tooltip_unreachable :
  ~ reachable Samples.result_without_tooltip.
Proof.
  intros H. apply reachable_invariant in H. destruct H as [H _].
  specialize (H eq_refl). discriminate H.
Qed.

(** Why the states of the field are the ones to quantify over: on that
    record a null result returns the record itself, not the cleared
    state. *)
Lemma null_result_keeps_stale_result :
  reduceSignatureHelpState Samples.result_without_tooltip Samples.null_effect
  = Samples.result_without_tooltip
  /\ reduceSignatureHelpState create Samples.null_effect = create
  /\ Samples.result_without_tooltip <> create.
Proof.
  split; [reflexivity|]. split; [reflexivity|].
  intros H. apply (f_equal st_result) in H. discriminate H.
Qed.

(** C2. Last response wins: the state produced by
    [reduceSignatureHelpState] depends only on the effect, not on the prior
    state.  For every effect and any two prior states of the field (states
    reachable from [create] through transactions), the state after the
    effect is the same; a non-null result installs that result with a
    tooltip at the effect's position, and a null result gives the cleared
    state. *)
Theorem last_response_wins :
  forall (e : SignatureChangeEffect) (s1 s2 : SignatureHelpState),
    reachable s1 -> reachable s2 ->
    reduceSignatureHelpState s1 e = reduceSignatureHelpState s2 e
    /\ reduceSignatureHelpState s1 e
       = match eff_result e with
         | Some r =>
             {| st_tooltip := Some {| tt_pos := eff_pos e;
                                      tt_above := true;
                                      tt_create := r |};
                st_result := Some r |}
         | None => {| st_tooltip := None; st_result := None |}
         end.
Proof.
  assert (Hnull : forall s pos, reachable s ->
            reduceSignatureHelpState s {| eff_pos := pos; eff_result := None |}
            = create).
  { intros s pos Hs. apply reachable_invariant in Hs.
    apply no_tooltip_is_create.
    - now apply reduce_preserves_invariant.
    - apply reduce_null_tooltip. }
  intros [pos [r|]] s1 s2 H1 H2; simpl.
  - now rewrite !reduce_installs.
  - now rewrite !Hnull.
Qed.

(** A state showing a tooltip and the initial state end up the same after a
    failed request. *)
Lemma last_response_wins_witness :
  reduceSignatureHelpState Samples.showing_state Samples.null_effect
  = reduceSignatureHelpState create Samples.null_effect.
Proof.
  apply (last_response_wins Samples.null_effect Samples.showing_state create).
  - apply (reachable_update create
             [setSignatureHelpEffect
                {| eff_pos := 6; eff_result := Some Samples.print_help |}]).
    apply reachable_create.
  - apply reachable_create.
Defined.

(** C8. The field invariant, tooltip null exactly when result null: it holds
    in the state made by [create], it is preserved by
    [reduceSignatureHelpState] and by the field's [update] for every list of
    transaction effects, and so it holds in every reachable state. *)
Theorem tooltip_null_iff_result_null :
  tooltip_iff_result create
  /\ (forall s e, tooltip_iff_result s ->
                  tooltip_iff_result (reduceSignatureHelpState s e))
  /\ (forall s effects, tooltip_iff_result s ->
                        tooltip_iff_result (update s effects))
  /\ (forall s, reachable s -> tooltip_iff_result s).
Proof.
  split; [split; reflexivity|].
  split; [exact reduce_preserves_invariant|].
  split; [exact update_preserves_invariant|exact reachable_invariant].
Qed.

End SignatureHelpField.

(** The state reached by showing [print_help] satisfies the invariant. *)
Lemma tooltip_null_iff_result_null_witness :
  SignatureHelp.tooltip_iff_result Samples.showing_state.
Proof.
  destruct tooltip_null_iff_result_null as (_ & _ & _ & Hreach).
  apply Hreach.
  apply (SignatureHelp.reachable_update SignatureHelp.create
           [SignatureHelp.setSignatureHelpEffect
              {| SignatureHelp.eff_pos := 6;
                 SignatureHelp.eff_result := Some Samples.print_help |}]).
  apply SignatureHelp.reachable_create.
Defined.

(** * The signature-help view *)

Section SignatureHelpView.

Import SignatureHelp.

(** Both branches that call [triggerSignatureHelpRequest] sit under a test
    of [docChanged] or [selectionSet]. *)
Lemma view_update_requests (field : SignatureHelpState) (u : ViewUpdate)
  (n : nat) :
  view_update field u = Return (S n) ->
  docChanged u = true \/ selectionSet u = true.
Proof.
  unfold view_update.
  destruct (docChanged u), (selectionSet u); simpl; auto.
  discriminate.
Qed.

(** C7. Signature-help requests are keyed off document and selection changes
    only: on a view update in which neither [docChanged] nor [selectionSet]
    holds, [SignatureHelpView.update] returns without a single call of
    [triggerSignatureHelpRequest], whatever the field state and the
    transactions are. *)
Theorem no_request_without_change :
  forall (field : SignatureHelpState) (u : ViewUpdate),
    docChanged u = false -> selectionSet u = false ->
    view_update field u = Return 0%nat.
Proof.
  intros field u Hdoc Hsel. unfold view_update.
  rewrite Hdoc, Hsel. reflexivity.
Qed.

(** A focus change while a tooltip is showing issues no request. *)
Lemma no_request_without_change_witness :
  view_update Samples.showing_state Samples.focus_update = Return 0%nat.
Proof.
  apply (no_request_without_change Samples.showing_state Samples.focus_update).
  - reflexivity.
  - reflexivity.
Defined.

(** The two ways a request is issued: a tooltip is showing, or the last
    transaction is user input that inserted text ending in a bracket pair. *)
Example typed_call_requests :
  view_update create Samples.typed_call = Return 1%nat
  /\ view_update Samples.showing_state Samples.typed_call = Return 1%nat.
Proof. split; reflexivity. Qed.

End SignatureHelpView.

(** * Rendering the tooltip *)

Section SignatureHelpRendering.

Import SignatureHelp.

Variable nameFromSignature : string -> string.
Variable removeFullyQualifiedName : string -> string.
Variable renderDocumentation : option Documentation -> bool -> Node.
Variable wrapWithDocumentationButton : Node -> string -> Node.

Local Abbreviation format :=
  (formatSignatureHelp nameFromSignature removeFullyQualifiedName
     renderDocumentation wrapWithDocumentationButton).

(** Without signatures there is no active signature, whatever the index. *)
Lemma active_signature_empty (help : SignatureHelp) :
  help_signatures help = [] -> active_signature help = None.
Proof.
  intros Hnil. unfold active_signature, array_get. rewrite Hnil.
  destruct (help_activeSignature help) as [| |n]; try reflexivity.
  destruct (n <? 0); [reflexivity|].
  now destruct (Z.to_nat n).
Qed.

(** C9, amended. Rendering is partial over the payload. When the active
    signature's active parameter carries a string label (rather than a pair
    of offsets), [formatSignatureHelp] throws the error "Not supported".  It
    also reads the active signature unguarded: when [signatures] is empty
    the read gives [undefined] and destructuring it throws a [TypeError],
    before the "Not supported" branch could be reached.  In both cases no
    node is produced. *)
Theorem formatSignatureHelp_partial :
  forall help : SignatureHelp,
    (forall sig p s,
        active_signature help = Some sig ->
        active_parameter sig = Some p ->
        param_label p = LabelString s ->
        format help = Throw (Error "Not supported"))
    /\ (help_signatures help = [] -> format help = Throw TypeError).
Proof.
  intros help. unfold format, formatSignatureHelp. split.
  - intros sig p s Hsig Hp Hlabel.
    rewrite Hsig, Hp. simpl. now rewrite Hlabel.
  - intros Hnil. now rewrite (active_signature_empty help Hnil).
Qed.

(** With offset labels a node is produced, and the tooltip wraps it. *)
Lemma tooltip_create_print :
  exists node,
    format Samples.print_help = Return node
    /\ tooltip_create nameFromSignature removeFullyQualifiedName
         renderDocumentation wrapWithDocumentationButton
         {| tt_pos := 6; tt_above := true; tt_create := Samples.print_help |}
       = Return (Element "div" "cm-signature-tooltip" [node]).
Proof. eexists. split; reflexivity. Qed.

End SignatureHelpRendering.

(** Both failures on the samples: a parameter labelled by name, and a help
    without signatures. *)
Lemma formatSignatureHelp_partial_witness :
  Samples.format Samples.named_help = Throw (Error "Not supported")
  /\ Samples.format Samples.empty_help = Throw TypeError.
Proof.
  split.
  - destruct (formatSignatureHelp_partial
                Samples.nameFromSignature Samples.removeFullyQualifiedName
                Samples.renderDocumentation
                Samples.wrapWithDocumentationButton
                Samples.named_help) as [Hlabel _].
    apply (Hlabel Samples.named_signature
             {| SignatureHelp.param_label := SignatureHelp.LabelString "value";
                SignatureHelp.param_documentation := None |} "value");
      reflexivity.
  - destruct (formatSignatureHelp_partial
                Samples.nameFromSignature Samples.removeFullyQualifiedName
                Samples.renderDocumentation
                Samples.wrapWithDocumentationButton
                Samples.empty_help) as [_ Hempty].
    apply Hempty. reflexivity.
Defined.

(** * Settings validation *)

Section SettingsValidation.

Import Settings.

Variable stage : string.
Variable NODE_ENV : option string.
Variable defaultCodeFontSizePt : JsNumber.

Local Abbreviation languages := (supportedLanguages stage NODE_ENV).
Local Abbreviation isValid := (isValidSettingsObject stage NODE_ENV).

Lemma find_is_some {A : Type} (f : A -> bool) (l : list A) :
  is_some (find f l) = existsb f l.
Proof.
  induction l as [|a l IH]; simpl; [reflexivity|].
  now destruct (f a).
Qed.

(** [indexOf] answers [-1] exactly when no element is strictly equal. *)
Lemma indexOf_from_none (arr : list string) (v : JsValue) (i : Z) :
  0 <= i ->
  (indexOf_from arr v i =? -1)
  = negb (existsb (fun a => strict_equals_string a v) arr).
Proof.
  revert i. induction arr as [|a arr IH]; intros i Hi; simpl.
  - reflexivity.
  - destruct (strict_equals_string a v); simpl.
    + apply Z.eqb_neq. lia.
    + apply IH. lia.
Qed.

Lemma get_object (properties : list (string * JsValue)) (name : string) :
  get (JObject properties) name = Return (property (JObject properties) name).
Proof. unfold get, property. now destruct (lookup name properties). Qed.

(** What the validator computes on an object. *)
Lemma isValid_object (properties : list (string * JsValue)) :
  isValid (JObject properties)
  = Return (negb (languageId_unsupported stage NODE_ENV (JObject properties))
            && negb (codeStructureHighlight_unknown (JObject properties))).
Proof.
  unfold isValidSettingsObject, languageId_unsupported,
    codeStructureHighlight_unknown, indexOf.
  change (String.eqb (typeof (JObject properties)) "object") with true.
  cbn [negb]. rewrite !get_object. cbn [bind].
  rewrite find_is_some, indexOf_from_none by lia.
  destruct (truthy _ && negb _); cbn [negb andb]; [reflexivity|].
  now destruct (existsb _ codeStructureOptions).
Qed.

Lemma typeof_object (value : JsValue) :
  value <> JNull ->
  String.eqb (typeof value) "object" = is_object value.
Proof. intros Hnull. destruct value; try reflexivity. now destruct Hnull. Qed.

(** C3, amended. Malformed settings objects are rejected: for every value
    other than null the validator returns, without failing, and it returns
    false exactly when the value is not an object, or its [languageId] is
    set (truthy) but is not a supported language id, or its
    [codeStructureHighlight] is not one of "none", "full", "simple".  A
    value that misses the Settings shape only by a missing or falsy
    [languageId] or by its [fontSize] is accepted. *)
Theorem malformed_settings_rejected :
  forall value : JsValue,
    value <> JNull ->
    isValid value
    = Return (is_object value
              && negb (languageId_unsupported stage NODE_ENV value)
              && negb (codeStructureHighlight_unknown value)).
Proof.
  intros value Hnull.
  destruct value as [| |b|n|s| |properties];
    try reflexivity.
  - now destruct Hnull.
  - now rewrite isValid_object.
Qed.

(** A string among the options is found by [indexOf]'s strict equality. *)
Lemma option_known (properties : list (string * JsValue)) (o : string) :
  lookup "codeStructureHighlight" properties = Some (JString o) ->
  existsb (String.eqb o) codeStructureOptions = true ->
  codeStructureHighlight_unknown (JObject properties) = false.
Proof.
  intros Hlookup Hin.
  unfold codeStructureHighlight_unknown, property. rewrite Hlookup.
  apply negb_false_iff.
  apply existsb_exists in Hin. destruct Hin as [a [Ha Heq]].
  apply existsb_exists. exists a. split; [exact Ha|].
  simpl. now rewrite String.eqb_sym.
Qed.

Lemma language_supported (properties : list (string * JsValue)) (l : string) :
  lookup "languageId" properties = Some (JString l) ->
  existsb (fun x => String.eqb (id x) l) languages = true ->
  languageId_unsupported stage NODE_ENV (JObject properties) = false.
Proof.
  intros Hlookup Hin.
  unfold languageId_unsupported, property. rewrite Hlookup.
  apply andb_false_iff. right. apply negb_false_iff. exact Hin.
Qed.

(** C6. The validator confirms well-formed settings: every object whose
    [languageId] is the id of a supported language, whose [fontSize] is a
    number and whose [codeStructureHighlight] is one of the three options is
    accepted; [defaultSettings] is such an object and is accepted. *)
Theorem well_formed_settings_accepted :
  (forall value : JsValue,
      matches_Settings_shape stage NODE_ENV value = true ->
      isValid value = Return true)
  /\ (exists settings : Settings,
         defaultSettings stage NODE_ENV defaultCodeFontSizePt = Return settings
         /\ matches_Settings_shape stage NODE_ENV (Settings_value settings)
            = true
         /\ isValid (Settings_value settings) = Return true).
Proof.
  assert (Hshape : forall value,
             matches_Settings_shape stage NODE_ENV value = true ->
             isValid value = Return true).
  { intros value Hshape.
    destruct value as [| |b|n|s| |properties]; try discriminate Hshape.
    unfold matches_Settings_shape in Hshape.
    apply andb_true_iff in Hshape. destruct Hshape as [Hshape Hoption].
    apply andb_true_iff in Hshape. destruct Hshape as [Hlanguage _].
    rewrite isValid_object.
    destruct (lookup "languageId" properties) as [[| | | |l| |]|] eqn:Hl;
      try discriminate Hlanguage.
    destruct (lookup "codeStructureHighlight" properties)
      as [[| | | |o| |]|] eqn:Ho; try discriminate Hoption.
    rewrite (language_supported properties l Hl Hlanguage).
    now rewrite (option_known properties o Ho Hoption). }
  split; [exact Hshape|].
  eexists. split; [reflexivity|].
  assert (Hdefault : matches_Settings_shape stage NODE_ENV
            (Settings_value
               {| languageId := "en";
                  fontSize := defaultCodeFontSizePt;
                  codeStructureHighlight := full |}) = true)
    by reflexivity.
  split; [exact Hdefault | exact (Hshape _ Hdefault)].
Qed.

Lemma lookup_set_property_other (name k : string) (v : JsValue)
  (properties : list (string * JsValue)) :
  String.eqb name k = false ->
  lookup k (set_property name v properties) = lookup k properties.
Proof.
  intros Hneq. induction properties as [|[k' w] rest IH]; simpl.
  - now rewrite Hneq.
  - destruct (String.eqb k' name) eqn:Hk; simpl.
    + apply String.eqb_eq in Hk. subst k'. now rewrite Hneq.
    + now rewrite IH.
Qed.

Lemma lookup_delete_property_other (name k : string)
  (properties : list (string * JsValue)) :
  String.eqb name k = false ->
  lookup k (delete_property name properties) = lookup k properties.
Proof.
  intros Hneq. induction properties as [|[k' w] rest IH]; simpl.
  - reflexivity.
  - destruct (String.eqb k' name) eqn:Hk; simpl.
    + apply String.eqb_eq in Hk. subst k'. now rewrite Hneq.
    + now rewrite IH.
Qed.

(** The validator reads two properties only. *)
Lemma isValid_reads (p q : list (string * JsValue)) :
  lookup "languageId" p = lookup "languageId" q ->
  lookup "codeStructureHighlight" p = lookup "codeStructureHighlight" q ->
  isValid (JObject p) = isValid (JObject q).
Proof.
  intros Hl Hc. rewrite !isValid_object.
  unfold languageId_unsupported, codeStructureHighlight_unknown, property.
  now rewrite Hl, Hc.
Qed.

(** C10. The validator does not require completeness: it accepts
    [{ codeStructureHighlight: "full" }], which has neither [languageId] nor
    [fontSize]; setting [fontSize] to any value at all, or deleting it,
    never changes the verdict on an object; and a font size above
    [maximumFontSize] or below [minimumFontSize] is accepted. *)
Theorem fontSize_never_checked :
  isValid (JObject [("codeStructureHighlight", JString "full")]) = Return true
  /\ (forall properties v,
         isValid (JObject (set_property "fontSize" v properties))
         = isValid (JObject properties))
  /\ (forall properties,
         isValid (JObject (delete_property "fontSize" properties))
         = isValid (JObject properties))
  /\ (forall o,
         isValid (Settings_value
                    {| languageId := "en";
                       fontSize := Num (maximumFontSize + 1);
                       codeStructureHighlight := o |}) = Return true
         /\ isValid (Settings_value
                       {| languageId := "en";
                          fontSize := Num (minimumFontSize - 1);
                          codeStructureHighlight := o |}) = Return true).
Proof.
  split; [reflexivity|].
  split.
  { intros properties v.
    apply isValid_reads; now apply lookup_set_property_other. }
  split.
  { intros properties.
    apply isValid_reads; now apply lookup_delete_property_other. }
  intros o. split; now destruct o.
Qed.

End SettingsValidation.

(** C3, as stated, fails twice: an object with a [codeStructureHighlight]
    alone does not match the Settings shape and is accepted, and on [null]
    the validator does not return at all, the read of [languageId]
    throws. *)
Lemma incomplete_settings_accepted :
  Samples.matches_Settings_shape Samples.highlight_only = false
  /\ Samples.isValidSettingsObject Samples.highlight_only = Return true
  /\ Samples.matches_Settings_shape Settings.JNull = false
  /\ Samples.isValidSettingsObject Settings.JNull = Throw TypeError.
Proof. repeat split. Qed.

(** Settings in an unsupported language are rejected. *)
Lemma malformed_settings_rejected_witness :
  Samples.isValidSettingsObject Samples.french_settings = Return false.
Proof.
  unfold Samples.isValidSettingsObject.
  rewrite (malformed_settings_rejected Samples.stage Samples.NODE_ENV
             Samples.french_settings).
  - reflexivity.
  - discriminate.
Defined.

(** Complete English settings are accepted. *)
Lemma well_formed_settings_accepted_witness :
  Samples.isValidSettingsObject Samples.english_settings = Return true.
Proof.
  apply (well_formed_settings_accepted Samples.stage Samples.NODE_ENV
           Samples.defaultCodeFontSizePt).
  reflexivity.
Defined.

(** * The router: encoding and parsing *)

Section UrlEncoding.

Import Router.

Ltac each_char c := destruct c as [[] [] [] [] [] [] [] []].

(** The characters that structure a query string never come out of
    [encodeURIComponent]. *)
Lemma encode_char_lacks (c d : ascii) :
  delimiter d -> lacks d (encode_char c) = true.
Proof.
  intros [->|[->|[->| ->]]]; each_char c; reflexivity.
Qed.

Lemma lacks_app (d : ascii) (s t : string) :
  lacks d (s ++ t) = lacks d s && lacks d t.
Proof.
  induction s as [|c s IH]; simpl; [reflexivity|].
  now rewrite IH, andb_assoc.
Qed.

Lemma encodeURIComponent_lacks (s : string) (d : ascii) :
  delimiter d -> lacks d (encodeURIComponent s) = true.
Proof.
  intros Hd. induction s as [|c s IH]; simpl; [reflexivity|].
  now rewrite lacks_app, encode_char_lacks, IH.
Qed.

(** Decoding undoes the encoding of one character, whatever follows. *)
Lemma percent_decode_encode_char (c : ascii) (rest : string) :
  percent_decode (encode_char c ++ rest) = String c (percent_decode rest).
Proof. each_char c; reflexivity. Qed.

Lemma percent_decode_encodeURIComponent (s : string) :
  percent_decode (encodeURIComponent s) = s.
Proof.
  induction s as [|c s IH]; simpl; [reflexivity|].
  now rewrite percent_decode_encode_char, IH.
Qed.

Lemma plus_to_space_lacks (s : string) :
  lacks "+" s = true -> plus_to_space s = s.
Proof.
  induction s as [|c s IH]; simpl; [reflexivity|].
  intros H. apply andb_true_iff in H. destruct H as [Hc Hs].
  apply negb_true_iff in Hc. now rewrite Hc, IH.
Qed.

(** A name without [=] is cut off at the first [=] that follows it. *)
Lemma split_pair_app (name value : string) :
  lacks "=" name = true ->
  split_pair (name ++ String "=" value) = (name, value).
Proof.
  induction name as [|c name IH]; simpl; [reflexivity|].
  intros H. apply andb_true_iff in H. destruct H as [Hc Hs].
  apply negb_true_iff in Hc. now rewrite Hc, IH.
Qed.

Lemma split_lacks (d : ascii) (s : string) :
  lacks d s = true -> split d s = [s].
Proof.
  induction s as [|c s IH]; simpl; [reflexivity|].
  intros H. apply andb_true_iff in H. destruct H as [Hc Hs].
  apply negb_true_iff in Hc. now rewrite Hc, IH.
Qed.

Lemma split_app (d : ascii) (s rest : string) :
  lacks d s = true -> split d (s ++ String d rest) = s :: split d rest.
Proof.
  induction s as [|c s IH]; simpl.
  - intros _. now rewrite Ascii.eqb_refl.
  - intros H. apply andb_true_iff in H. destruct H as [Hc Hs].
    apply negb_true_iff in Hc. now rewrite Hc, IH.
Qed.

(** [join] then [split] gives the pieces back, when there are any and none
    contains the separator. *)
Lemma split_concat (d : ascii) (parts : list string) :
  parts <> [] ->
  forallb (lacks d) parts = true ->
  split d (String.concat (String d EmptyString) parts) = parts.
Proof.
  induction parts as [|p parts IH]; [congruence|].
  intros _ H. simpl in H. apply andb_true_iff in H. destruct H as [Hp Hps].
  destruct parts as [|q parts].
  - simpl. now apply split_lacks.
  - change (String.concat (String d EmptyString) (p :: q :: parts))
      with (p ++ String d (String.concat (String d EmptyString) (q :: parts))).
    rewrite split_app by exact Hp.
    rewrite IH; [reflexivity | discriminate | exact Hps].
Qed.

End UrlEncoding.

(** * The router: state, navigation and parsing *)

Section RouterState.

Import Router.

Lemma key_eqb_eq (a b : RouterKey) : key_eqb a b = true <-> a = b.
Proof. destruct a, b; simpl; split; congruence. Qed.

Lemma key_eqb_refl (a : RouterKey) : key_eqb a a = true.
Proof. now destruct a. Qed.

Lemma key_eqb_neq (a b : RouterKey) : key_eqb a b = false <-> a <> b.
Proof. destruct a, b; simpl; split; congruence. Qed.

Lemma key_name_eqb (a b : RouterKey) :
  String.eqb (key_name a) (key_name b) = key_eqb a b.
Proof. now destruct a, b. Qed.

(** ** Reading after writing *)

Lemma state_get_set_same (state : RouterState) (key : RouterKey)
  (value : RouterValue) :
  state_get (state_set state key value) key = value.
Proof.
  induction state as [|[k v] rest IH]; simpl.
  - now rewrite key_eqb_refl.
  - destruct (key_eqb k key) eqn:Hk; simpl; now rewrite Hk.
Qed.

Lemma state_get_set_other (state : RouterState) (key other : RouterKey)
  (value : RouterValue) :
  other <> key ->
  state_get (state_set state key value) other = state_get state other.
Proof.
  intros Hneq. induction state as [|[k v] rest IH]; simpl.
  - destruct (key_eqb key other) eqn:Hk; [|reflexivity].
    apply key_eqb_eq in Hk. congruence.
  - destruct (key_eqb k key) eqn:Hk; simpl.
    + apply key_eqb_eq in Hk. subst k.
      destruct (key_eqb key other) eqn:Hko; [|reflexivity].
      apply key_eqb_eq in Hko. congruence.
    + now rewrite IH.
Qed.

(** ** The query string *)

(** After the truthiness filter [serializeValue] meets no [undefined], so
    the [map] of [navigate] goes through. *)
Lemma map_completion_truthy (entries : list (RouterKey * RouterValue)) :
  forallb (fun kv => truthy (snd kv)) entries = true ->
  map_completion
    (fun kv =>
       value <- serializeValue (snd kv) ;;
       Return (encodeURIComponent (key_name (fst kv)) ++ "="
               ++ encodeURIComponent value))
    entries
  = Return (map query_part entries).
Proof.
  induction entries as [|[k v] rest IH]; [reflexivity|].
  intros H. simpl in H. apply andb_true_iff in H. destruct H as [Hv Hrest].
  cbn [map_completion map]. rewrite (IH Hrest).
  destruct v; [discriminate Hv | reflexivity | reflexivity].
Qed.

Lemma filter_forallb {A : Type} (f : A -> bool) (l : list A) :
  forallb f (filter f l) = true.
Proof.
  induction l as [|a l IH]; simpl; [reflexivity|].
  destruct (f a) eqn:Hf; simpl; [now rewrite Hf|exact IH].
Qed.

(** [navigate] always computes a query: the parts of the truthy entries
    joined by [&]. *)
Lemma navigate_query_returns (state : RouterState) :
  navigate_query state
  = Return (String.concat "&"
              (map query_part (filter (fun kv => truthy (snd kv)) state))).
Proof.
  unfold navigate_query.
  now rewrite map_completion_truthy by apply filter_forallb.
Qed.

(** C4. Setting a router parameter preserves the other parameters: from
    every router state, for every parameter and every new value (undefined
    included), the setter returned by [useRouterParam] completes the
    navigation, and the state it hands to [setState] maps the parameter to
    the new value and agrees with the old state on every other
    parameter. *)
Theorem setting_param_preserves_others :
  forall (href : string) (state : RouterState) (param : RouterParam)
         (value : RouterValue),
  exists (url : string) (newState : RouterState),
    snd (useRouterParam state (navigate href) param) value
    = Return (url, newState)
    /\ get param newState = value
    /\ (forall other : RouterParam,
           param_id other <> param_id param ->
           get other newState = get other state).
Proof.
  intros href state param value.
  unfold useRouterParam, navigateParam, navigate; simpl.
  rewrite navigate_query_returns; simpl.
  eexists. eexists. split; [reflexivity|]. unfold get. split.
  - apply state_get_set_same.
  - intros other Hneq. now apply state_get_set_other.
Qed.

End RouterState.

(** * The router: from state to URL and back *)

Section RouterRoundTrip.

Import Router.

Local Abbreviation shown := (fun kv : RouterKey * RouterValue => truthy (snd kv)).

Lemma delimiter_amp : delimiter "&". Proof. now left. Qed.
Lemma delimiter_eq : delimiter "=". Proof. right; now left. Qed.
Lemma delimiter_plus : delimiter "+". Proof. right; right; now left. Qed.
Lemma delimiter_question : delimiter "?". Proof. right; right; now right. Qed.

Lemma query_part_lacks (d : ascii) (kv : RouterKey * RouterValue) :
  delimiter d -> d <> "="%char -> lacks d (query_part kv) = true.
Proof.
  intros Hd Hneq. unfold query_part.
  rewrite lacks_app. cbn [lacks].
  rewrite !encodeURIComponent_lacks by exact Hd.
  apply Ascii.eqb_neq in Hneq. rewrite Ascii.eqb_sym in Hneq.
  now rewrite Hneq.
Qed.

Lemma query_part_nonempty (kv : RouterKey * RouterValue) :
  is_empty (query_part kv) = false.
Proof. destruct kv as [[] v]; reflexivity. Qed.

(** Parsing one written part gives the name and the text back. *)
Lemma decode_query_part (kv : RouterKey * RouterValue) :
  (let (name, value) := split_pair (query_part kv) in
   (percent_decode (plus_to_space name), percent_decode (plus_to_space value)))
  = param_of kv.
Proof.
  unfold query_part, param_of.
  rewrite split_pair_app
    by (apply encodeURIComponent_lacks, delimiter_eq).
  rewrite !plus_to_space_lacks
    by (apply encodeURIComponent_lacks, delimiter_plus).
  now rewrite !percent_decode_encodeURIComponent.
Qed.

(** The question mark is dropped only when it leads. *)
Lemma strip_question_lacks (q : string) :
  lacks "?" q = true ->
  match q with
  | String "?" rest => rest
  | _ => q
  end = q.
Proof.
  destruct q as [|c q]; [reflexivity|].
  destruct c as [[] [] [] [] [] [] [] []]; try reflexivity.
  discriminate.
Qed.

Lemma concat_lacks (d : ascii) (parts : list string) :
  d <> "&"%char ->
  forallb (lacks d) parts = true ->
  lacks d (String.concat "&" parts) = true.
Proof.
  intros Hneq. induction parts as [|p parts IH]; [reflexivity|].
  intros H. simpl in H. apply andb_true_iff in H. destruct H as [Hp Hps].
  destruct parts as [|r parts]; [exact Hp|].
  change (String.concat "&" (p :: r :: parts))
    with (p ++ String "&" (String.concat "&" (r :: parts))).
  rewrite lacks_app, Hp. cbn [lacks andb].
  apply Ascii.eqb_neq in Hneq. rewrite Ascii.eqb_sym, Hneq. cbn [negb andb].
  now apply IH.
Qed.

Lemma forallb_map {A B : Type} (f : B -> bool) (g : A -> B) (l : list A) :
  (forall a, f (g a) = true) -> forallb f (map g l) = true.
Proof.
  intros H. induction l as [|a l IH]; simpl; [reflexivity|].
  now rewrite H, IH.
Qed.

Lemma filter_all {A : Type} (f : A -> bool) (l : list A) :
  forallb f l = true -> filter f l = l.
Proof.
  induction l as [|a l IH]; simpl; [reflexivity|].
  intros H. apply andb_true_iff in H. destruct H as [Ha Hl].
  now rewrite Ha, IH.
Qed.

(** What the browser reads back from the query written for [entries],
    with or without the leading question mark. *)
Lemma URLSearchParams_query (entries : list (RouterKey * RouterValue)) :
  let query := String.concat "&" (map query_part entries) in
  URLSearchParams query = map param_of entries
  /\ URLSearchParams (String "?" query) = map param_of entries.
Proof.
  intros query.
  assert (Hq : lacks "?" query = true).
  { apply concat_lacks; [discriminate|].
    apply forallb_map. intros kv.
    apply (query_part_lacks "?" kv); [apply delimiter_question|discriminate]. }
  assert (Hbody :
    map (fun sequence =>
           let (name, value) := split_pair sequence in
           (percent_decode (plus_to_space name),
            percent_decode (plus_to_space value)))
        (filter (fun sequence => negb (is_empty sequence)) (split "&" query))
    = map param_of entries).
  { destruct entries as [|kv entries]; [reflexivity|].
    unfold query. rewrite split_concat.
    - rewrite filter_all.
      + rewrite map_map. apply map_ext. intros a. apply decode_query_part.
      + apply forallb_map. intros a. now rewrite query_part_nonempty.
    - discriminate.
    - apply forallb_map. intros a.
      apply (query_part_lacks "&" a); [apply delimiter_amp|discriminate]. }
  split.
  - unfold URLSearchParams. rewrite strip_question_lacks by exact Hq.
    exact Hbody.
  - exact Hbody.
Qed.

Lemma params_get_param_of (entries : list (RouterKey * RouterValue))
  (key : RouterKey) :
  params_get (map param_of entries) (key_name key)
  = option_map value_text (entry_get entries key).
Proof.
  induction entries as [|[k v] rest IH]; simpl; [reflexivity|].
  rewrite key_name_eqb. now destruct (key_eqb k key).
Qed.

(** ** Objects: each key once *)

Lemma absent_state_get (state : RouterState) (key : RouterKey) :
  existsb (fun kv => key_eqb (fst kv) key) state = false ->
  state_get state key = VUndefined.
Proof.
  induction state as [|[k v] rest IH]; simpl; [reflexivity|].
  intros H. apply orb_false_iff in H. destruct H as [Hk Hrest].
  rewrite Hk. now apply IH.
Qed.

Lemma absent_entry_get (state : RouterState) (key : RouterKey) :
  existsb (fun kv => key_eqb (fst kv) key) state = false ->
  entry_get (filter shown state) key = None.
Proof.
  induction state as [|[k v] rest IH]; simpl; [reflexivity|].
  intros H. apply orb_false_iff in H. destruct H as [Hk Hrest].
  destruct (truthy v); simpl; [rewrite Hk|]; now apply IH.
Qed.

(** The entries that reach the URL are the truthy properties. *)
Lemma entry_get_shown (state : RouterState) (key : RouterKey) :
  is_RouterState state = true ->
  entry_get (filter shown state) key
  = if truthy (state_get state key) then Some (state_get state key) else None.
Proof.
  induction state as [|[k v] rest IH]; simpl; [reflexivity|].
  intros H. apply andb_true_iff in H. destruct H as [H Hrest].
  apply andb_true_iff in H. destruct H as [_ Hfresh].
  apply negb_true_iff in Hfresh.
  destruct (key_eqb k key) eqn:Hk.
  - apply key_eqb_eq in Hk. subst k.
    destruct (truthy v) eqn:Hv; simpl.
    + now rewrite key_eqb_refl.
    + now apply absent_entry_get.
  - destruct (truthy v); simpl; [rewrite Hk|]; now apply IH.
Qed.

Lemma state_get_well_typed (state : RouterState) (key : RouterKey) :
  is_RouterState state = true -> well_typed key (state_get state key) = true.
Proof.
  induction state as [|[k v] rest IH]; simpl.
  - intros _. now destruct key.
  - intros H. apply andb_true_iff in H. destruct H as [H Hrest].
    apply andb_true_iff in H. destruct H as [Htyped _].
    destruct (key_eqb k key) eqn:Hk.
    + apply key_eqb_eq in Hk. now subst k.
    + now apply IH.
Qed.

Lemma state_get_nonempty (state : RouterState) (key : RouterKey) :
  forallb (fun kv => nonempty_value (snd kv)) state = true ->
  nonempty_value (state_get state key) = true.
Proof.
  induction state as [|[k v] rest IH]; simpl; [reflexivity|].
  intros H. apply andb_true_iff in H. destruct H as [Hv Hrest].
  destruct (key_eqb k key); [exact Hv | now apply IH].
Qed.

(** Reading one key of a parsed state, from the parameters alone. *)
Lemma parse_key (params : list (string * string)) (value : RouterValue)
  (key : RouterKey) :
  well_typed key value = true ->
  nonempty_value value = true ->
  params_get params (key_name key)
  = (if truthy value then Some (value_text value) else None) ->
  state_get
    [ (tab, match params_get params "tab" with
            | Some s => VString s
            | None => VUndefined
            end);
      (reference, anchorForParam (params_get params "reference"));
      (explore, anchorForParam (params_get params "explore")) ] key
  = value.
Proof.
  intros Htyped Hnonempty Hget.
  destruct key; simpl in *; rewrite Hget;
    destruct value as [|s|[i]]; try discriminate Htyped; try reflexivity;
    simpl in *.
  - apply negb_true_iff in Hnonempty. now rewrite Hnonempty.
  - apply negb_true_iff in Hnonempty. now rewrite Hnonempty.
  - apply negb_true_iff in Hnonempty. now rewrite Hnonempty.
Qed.

(** C5, amended. Router state round-trips through the URL when nothing in
    it is an empty string: for every router state whose [tab], if set, is a
    non-empty string and whose anchors have non-empty ids, [navigate] builds
    a query string, and parsing that string, with or without the leading
    question mark, gives a state that agrees with the original on every
    router key. *)
Theorem router_state_round_trip :
  forall state : RouterState,
    is_RouterState state = true ->
    forallb (fun kv => nonempty_value (snd kv)) state = true ->
    exists query : string,
      navigate_query state = Return query
      /\ (forall key, state_get (parse query) key = state_get state key)
      /\ (forall key,
             state_get (parse (String "?" query)) key = state_get state key).
Proof.
  intros state Hstate Hnonempty.
  eexists. split; [apply navigate_query_returns|].
  destruct (URLSearchParams_query (filter shown state)) as [Hbare Hmark].
  cbv zeta in Hbare, Hmark.
  assert (Hkey : forall key,
    params_get (map param_of (filter shown state)) (key_name key)
    = if truthy (state_get state key)
      then Some (value_text (state_get state key)) else None).
  { intros key. rewrite params_get_param_of, entry_get_shown by exact Hstate.
    now destruct (truthy (state_get state key)). }
  split; intros key; unfold parse; rewrite ?Hbare, ?Hmark;
    (apply parse_key;
     [ now apply state_get_well_typed
     | now apply state_get_nonempty
     | apply Hkey ]).
Qed.

End RouterRoundTrip.

(** A state whose anchor id is full of delimiters survives the URL. *)
Lemma router_state_round_trip_witness :
  exists query : string,
    Router.navigate_query Samples.docs_state = Return query
    /\ (forall key,
           Router.state_get (Router.parse query) key
           = Router.state_get Samples.docs_state key)
    /\ (forall key,
           Router.state_get (Router.parse (String "?" query)) key
           = Router.state_get Samples.docs_state key).
Proof.
  apply (router_state_round_trip Samples.docs_state).
  - reflexivity.
  - reflexivity.
Defined.

(** C5, as stated, fails on empty strings. An empty tab name is dropped by
    the truthiness filter, so the query is empty and the parsed tab is
    undefined; an anchor with an empty id is written as [reference=] and
    parsed back as no anchor. *)
Lemma empty_strings_lost_in_url :
  Router.is_RouterState Samples.empty_tab_state = true
  /\ Router.navigate_query Samples.empty_tab_state = Return ""
  /\ Router.state_get (Router.parse "") Router.tab = Router.VUndefined
  /\ Router.state_get Samples.empty_tab_state Router.tab = Router.VString ""
  /\ Router.is_RouterState Samples.empty_anchor_state = true
  /\ Router.navigate_query Samples.empty_anchor_state = Return "reference="
  /\ Router.state_get (Router.parse "?reference=") Router.reference
     = Router.VUndefined
  /\ Router.state_get Samples.empty_anchor_state Router.reference
     = Router.VAnchor {| Router.id := "" |}.
Proof. repeat split. Qed.

(** * The request protocol: responses in arrival order *)

Section SignatureHelpProtocol.

Import SignatureHelp.

(** A response turned into the effect it is dispatched as. *)
Lemma update_trigger (s : SignatureHelpState) (pos : Z) (r : Response) :
  update s (triggerSignatureHelpRequest pos r)
  = reduceSignatureHelpState s
      {| eff_pos := pos;
         eff_result := match r with
                       | Resolved result => result
                       | Rejected _ => None
                       end |}.
Proof. now destruct r. Qed.

(** A resolved help is shown at the position of its request. *)
Lemma resolved_help_provided (s : SignatureHelpState) (pos : Z)
  (help : SignatureHelp) :
  provide (update s (triggerSignatureHelpRequest pos (Resolved (Some help))))
  = Some {| tt_pos := pos; tt_above := true; tt_create := help |}.
Proof. rewrite update_trigger. unfold provide. now rewrite reduce_installs. Qed.

(** X1. What the editor shows after a request settles depends on the
    response alone: a resolved, non-null help is shown at the position the
    request was made for; a null help and a failure both leave no tooltip. *)
Theorem response_decides_tooltip :
  forall (state : SignatureHelpState) (pos : Z) (r : Response),
    provide (update state (triggerSignatureHelpRequest pos r))
    = match r with
      | Resolved (Some help) =>
          Some {| tt_pos := pos; tt_above := true; tt_create := help |}
      | Resolved None => None
      | Rejected _ => None
      end.
Proof.
  intros state pos r. rewrite update_trigger. unfold provide.
  destruct r as [[help|]|e].
  - now rewrite reduce_installs.
  - apply reduce_null_tooltip.
  - apply reduce_null_tooltip.
Qed.

(** X2. Within one transaction the first [setSignatureHelpEffect] decides:
    effects of other types before it are skipped and whatever follows it,
    further signature-help effects included, is ignored. *)
Theorem first_effect_decides :
  forall (state : SignatureHelpState) (before after : list StateEffect)
         (v : SignatureChangeEffect),
    forallb (fun e => negb (is_setSignatureHelpEffect e)) before = true ->
    update state (before ++ setSignatureHelpEffect v :: after)
    = reduceSignatureHelpState state v.
Proof.
  intros state before after v. induction before as [|[w|tag] before IH].
  - reflexivity.
  - discriminate.
  - intros H. apply IH. exact H.
Qed.

Lemma first_effect_decides_witness :
  update Samples.showing_state
    ([otherEffect 0; otherEffect 1]
     ++ setSignatureHelpEffect Samples.null_effect
     :: [setSignatureHelpEffect
           {| eff_pos := 3; eff_result := Some Samples.named_help |}])
  = create.
Proof.
  rewrite (first_effect_decides Samples.showing_state
             [otherEffect 0; otherEffect 1]
             [setSignatureHelpEffect
                {| eff_pos := 3; eff_result := Some Samples.named_help |}]
             Samples.null_effect).
  - reflexivity.
  - reflexivity.
Defined.

(** X3. A transaction that carries no [setSignatureHelpEffect] leaves the
    field exactly as it was: edits and selection changes by themselves
    neither move nor clear the tooltip. *)
Theorem other_effects_keep_state :
  forall (state : SignatureHelpState) (effects : list StateEffect),
    forallb (fun e => negb (is_setSignatureHelpEffect e)) effects = true ->
    update state effects = state.
Proof.
  intros state effects. induction effects as [|[w|tag] effects IH].
  - reflexivity.
  - discriminate.
  - intros H. apply IH. exact H.
Qed.

Lemma other_effects_keep_state_witness :
  update Samples.showing_state [otherEffect 0; otherEffect 7]
  = Samples.showing_state.
Proof.
  apply (other_effects_keep_state Samples.showing_state
           [otherEffect 0; otherEffect 7]).
  reflexivity.
Defined.

(** On a state that satisfies the invariant the reducer is a function of
    the effect. *)
Lemma reduce_from_create (s : SignatureHelpState) (e : SignatureChangeEffect) :
  tooltip_iff_result s ->
  reduceSignatureHelpState s e = reduceSignatureHelpState create e.
Proof.
  intros Hs. destruct e as [pos [r|]].
  - now rewrite !reduce_installs.
  - transitivity create; [|reflexivity].
    apply no_tooltip_is_create.
    + now apply reduce_preserves_invariant.
    + apply reduce_null_tooltip.
Qed.

Lemma settle_from_create (s : SignatureHelpState) (r : Z * Response) :
  tooltip_iff_result s -> settle s r = settle create r.
Proof.
  intros Hs. unfold settle. rewrite !update_trigger.
  now apply reduce_from_create.
Qed.

Lemma settle_all_invariant (rs : list (Z * Response)) (s : SignatureHelpState) :
  tooltip_iff_result s -> tooltip_iff_result (settle_all s rs).
Proof.
  revert s. induction rs as [|r rs IH]; intros s Hs; simpl.
  - exact Hs.
  - apply IH. now apply update_preserves_invariant.
Qed.

(** X4. Responses are applied in the order they arrive and the last one to
    arrive wins: after any run of settled requests from a state of the
    field, the field is what the last response alone gives from the initial
    state, whichever request was issued first.  An early request answered
    late so overwrites the tooltip of a later one. *)
Theorem last_arrival_wins :
  forall (state : SignatureHelpState) (earlier : list (Z * Response))
         (latest : Z * Response),
    tooltip_iff_result state ->
    settle_all state (earlier ++ [latest]) = settle create latest.
Proof.
  intros state earlier latest Hs. unfold settle_all.
  rewrite fold_left_app. simpl.
  apply settle_from_create.
  now apply (settle_all_invariant earlier).
Qed.

Lemma last_arrival_wins_witness :
  provide (settle_all Samples.showing_state
             ([(9, Rejected (Error "timeout"))]
              ++ [(6, Resolved (Some Samples.print_help))]))
  = Some {| tt_pos := 6; tt_above := true; tt_create := Samples.print_help |}.
Proof.
  rewrite (last_arrival_wins Samples.showing_state
             [(9, Rejected (Error "timeout"))]
             (6, Resolved (Some Samples.print_help))).
  - reflexivity.
  - split; discriminate.
Defined.

(** X5. Applying the same effect twice is the same as applying it once, from
    every state record: a response delivered twice changes nothing more. *)
Theorem reduce_idempotent :
  forall (state : SignatureHelpState) (e : SignatureChangeEffect),
    reduceSignatureHelpState (reduceSignatureHelpState state e) e
    = reduceSignatureHelpState state e.
Proof.
  intros state [pos [r|]].
  - now rewrite !reduce_installs.
  - unfold reduceSignatureHelpState at 1. cbn [eff_result is_some negb].
    rewrite reduce_null_tooltip. cbn [is_some andb].
    reflexivity.
Qed.

(** X6. While a help is showing the view keeps it fresh: after a request
    resolved with a help, every view update that changes the document or
    the selection issues exactly one new request, whatever its transactions
    are. *)
Theorem showing_tooltip_requests_once :
  forall (state : SignatureHelpState) (pos : Z) (help : SignatureHelp)
         (u : ViewUpdate),
    docChanged u = true \/ selectionSet u = true ->
    view_update
      (update state (triggerSignatureHelpRequest pos (Resolved (Some help)))) u
    = Return 1%nat.
Proof.
  intros state pos help u Hchange.
  rewrite update_trigger, reduce_installs. unfold view_update.
  cbn [st_tooltip is_some].
  destruct Hchange as [-> | ->]; [reflexivity|].
  now rewrite orb_true_r.
Qed.

Lemma showing_tooltip_requests_once_witness :
  view_update
    (update create
       (triggerSignatureHelpRequest 6 (Resolved (Some Samples.print_help))))
    Samples.cursor_update
  = Return 1%nat.
Proof.
  apply (showing_tooltip_requests_once create 6 Samples.print_help
           Samples.cursor_update).
  right. reflexivity.
Defined.

(** X7. There is no retry: after a request failed or resolved with null, a
    view update issues no request when it only moves the selection, or when
    its last transaction is not user input. *)
Theorem no_retry_after_failure :
  forall (state : SignatureHelpState) (pos : Z) (r : Response) (u : ViewUpdate),
    r = Resolved None \/ (exists e, r = Rejected e) ->
    docChanged u = false
    \/ (exists last, last_transaction (transactions u) = Some last
                     /\ isUserEvent last "input" = false) ->
    view_update (update state (triggerSignatureHelpRequest pos r)) u
    = Return 0%nat.
Proof.
  intros state pos r u Hr Hu.
  assert (Hnone : st_tooltip (update state (triggerSignatureHelpRequest pos r))
                  = None).
  { rewrite update_trigger.
    destruct Hr as [-> | [e ->]]; apply reduce_null_tooltip. }
  unfold view_update. rewrite Hnone. cbn [is_some]. rewrite andb_false_r.
  destruct Hu as [-> | [last [-> ->]]].
  - reflexivity.
  - now destruct (docChanged u).
Qed.

Lemma no_retry_after_failure_witness :
  view_update
    (update Samples.showing_state
       (triggerSignatureHelpRequest 6 (Rejected (Error "timeout"))))
    Samples.cursor_update
  = Return 0%nat.
Proof.
  apply (no_retry_after_failure Samples.showing_state 6
           (Rejected (Error "timeout")) Samples.cursor_update).
  - right. exists (Error "timeout"). reflexivity.
  - left. reflexivity.
Defined.

End SignatureHelpProtocol.

(** C9, as stated, fails on the empty array: the only error branch of
    [formatSignatureHelp], the throw of "Not supported", is not what an
    empty [signatures] array leads to; the function fails earlier, with a
    [TypeError]. *)
Lemma empty_signatures_throw_type_error :
  SignatureHelp.help_signatures Samples.empty_help = []
  /\ Samples.format Samples.empty_help = Throw TypeError
  /\ Samples.format Samples.empty_help <> Throw (Error "Not supported").
Proof.
  split; [reflexivity|]. split; [reflexivity|]. discriminate.
Qed.

(** * Rendering: when a node is produced, and what it shows *)

Section SignatureHelpNodes.

Import SignatureHelp.

Variable nameFromSignature : string -> string.
Variable removeFullyQualifiedName : string -> string.
Variable renderDocumentation : option Documentation -> bool -> Node.
Variable wrapWithDocumentationButton : Node -> string -> Node.

Local Abbreviation format :=
  (formatSignatureHelp nameFromSignature removeFullyQualifiedName
     renderDocumentation wrapWithDocumentationButton).

Local Abbreviation highlighted :=
  (formatHighlightedParameter nameFromSignature removeFullyQualifiedName
     renderDocumentation wrapWithDocumentationButton).

(** The node built around three pieces of the label. *)
Local Abbreviation node_of before parameter after doc :=
  (wrapWithDocumentationButton
     (Element "div" "docs-markdown"
        [ Element "code" ""
            [ TextNode (removeFullyQualifiedName before);
              Element "span" "cm-signature-activeParameter"
                [TextNode parameter];
              TextNode after ];
          renderDocumentation doc true ])
     (nameFromSignature before)).

(** X8. The outcomes of [formatSignatureHelp], case by case: it returns a
    node exactly when there is an active signature whose active parameter,
    if any, is not labelled by a string; it throws a [TypeError] exactly
    when there is no active signature; and the only other error is "Not
    supported", thrown exactly for a string label. *)
Theorem formatSignatureHelp_outcomes :
  forall help : SignatureHelp,
    match format help with
    | Return _ =>
        exists sig,
          active_signature help = Some sig
          /\ forall p s, active_parameter sig = Some p ->
                         param_label p <> LabelString s
    | Throw TypeError => active_signature help = None
    | Throw (Error message) =>
        message = "Not supported"
        /\ exists sig p s,
             active_signature help = Some sig
             /\ active_parameter sig = Some p
             /\ param_label p = LabelString s
    end.
Proof.
  intros help. unfold formatSignatureHelp.
  destruct (active_signature help) as [sig|]; [|reflexivity].
  destruct (active_parameter sig) as [p|] eqn:Hp; simpl.
  - destruct (param_label p) as [s|from to] eqn:Hlabel.
    + split; [reflexivity|]. now exists sig, p, s.
    + exists sig. split; [reflexivity|].
      intros q s Hq. rewrite Hp in Hq. injection Hq as <-.
      now rewrite Hlabel.
  - exists sig. split; [reflexivity|].
    intros q s Hq. rewrite Hp in Hq. discriminate Hq.
Qed.



(** ** Cutting the label *)







Lemma substring_all (s : string) :
  String.substring 0 (String.length s) s = s.
Proof.
  induction s as [|c s IH]; simpl; [reflexivity|]. now rewrite IH.
Qed.

Lemma substring_end (s : string) :
  String.substring (String.length s) 0 s = EmptyString.
Proof. induction s as [|c s IH]; simpl; [reflexivity|exact IH]. Qed.

(** X11. Without an active parameter (no index on the signature, no
    parameter list, or an index outside it) nothing is highlighted: the
    node shows the whole label before an empty highlighting span, with the
    documentation of the signature. *)
Theorem no_active_parameter_shows_label :
  forall (help : SignatureHelp) (sig : SignatureInformation),
    active_signature help = Some sig ->
    active_parameter sig = None ->
    format help
    = Return (node_of (sig_label sig) EmptyString EmptyString
                (sig_documentation sig)).
Proof.
  intros help sig Hsig Hnone. unfold formatSignatureHelp.
  rewrite Hsig, Hnone. cbn [option_map active_parameter_doc].
  unfold formatHighlightedParameter, js_substring_from, js_substring.
  set (len := Z.of_nat (String.length (sig_label sig))).
  assert (Hlen : 0 <= len) by (unfold len; lia).
  assert (H0 : clamp len 0 = 0) by (unfold clamp; lia).
  assert (Hl : clamp len len = len) by (unfold clamp; lia).
  rewrite H0, Hl, Z.min_id, Z.max_id, Z.sub_diag.
  rewrite (Z.min_l 0 len), (Z.max_r 0 len), Z.sub_0_r by lia.
  change (Z.to_nat 0) with 0%nat.
  unfold len. rewrite Nat2Z.id, substring_all, substring_end.
  reflexivity.
Qed.

(** X12. The field never checks that a help can be rendered: a resolved
    help is always installed as a tooltip, and when [formatSignatureHelp]
    fails on it the failure comes out of the tooltip's [create], with the
    same error. *)
Theorem unrenderable_help_is_installed :
  forall (state : SignatureHelpState) (pos : Z) (help : SignatureHelp)
         (e : JsError),
    format help = Throw e ->
    exists t,
      provide (update state
                 (triggerSignatureHelpRequest pos (Resolved (Some help))))
      = Some t
      /\ tt_pos t = pos
      /\ tooltip_create nameFromSignature removeFullyQualifiedName
           renderDocumentation wrapWithDocumentationButton t
         = Throw e.
Proof.
  intros state pos help e Hfail.
  rewrite resolved_help_provided.
  eexists. split; [reflexivity|]. split; [reflexivity|].
  unfold tooltip_create. cbn [tt_create]. now rewrite Hfail.
Qed.

End SignatureHelpNodes.



Lemma no_active_parameter_shows_label_witness :
  exists node, Samples.format Samples.input_help = Return node.
Proof.
  eexists.
  apply (no_active_parameter_shows_label
           Samples.nameFromSignature Samples.removeFullyQualifiedName
           Samples.renderDocumentation Samples.wrapWithDocumentationButton
           Samples.input_help Samples.input_signature).
  - reflexivity.
  - reflexivity.
Defined.

Lemma unrenderable_help_is_installed_witness :
  exists t,
    SignatureHelp.provide
      (SignatureHelp.update SignatureHelp.create
         (SignatureHelp.triggerSignatureHelpRequest 6
            (SignatureHelp.Resolved (Some Samples.named_help))))
    = Some t
    /\ SignatureHelp.tt_pos t = 6
    /\ SignatureHelp.tooltip_create
         Samples.nameFromSignature Samples.removeFullyQualifiedName
         Samples.renderDocumentation Samples.wrapWithDocumentationButton t
       = Throw (Error "Not supported").
Proof.
  apply (unrenderable_help_is_installed
           Samples.nameFromSignature Samples.removeFullyQualifiedName
           Samples.renderDocumentation Samples.wrapWithDocumentationButton
           SignatureHelp.create 6 Samples.named_help (Error "Not supported")).
  reflexivity.
Defined.

(** * Settings: what acceptance guarantees *)

Lemma isValid_true_object (stage : string) (NODE_ENV : option string)
  (value : Settings.JsValue) :
  Settings.isValidSettingsObject stage NODE_ENV value = Return true ->
  exists properties, value = Settings.JObject properties.
Proof.
  destruct value; try discriminate. intros _. now eexists.
Qed.

Section SettingsGuarantees.

Import Settings.

Variable stage : string.
Variable NODE_ENV : option string.

Local Abbreviation languages := (supportedLanguages stage NODE_ENV).
Local Abbreviation isValid := (isValidSettingsObject stage NODE_ENV).

Lemma strict_equals_string_eq (s : string) (v : JsValue) :
  strict_equals_string s v = true <-> v = JString s.
Proof.
  destruct v; simpl; split; try discriminate.
  - intros H. apply String.eqb_eq in H. now subst.
  - intros H. injection H as ->. apply String.eqb_refl.
Qed.

(** X13. What a successful validation guarantees, and no more: the value is
    an object, its [codeStructureHighlight] is one of the three option
    strings, and its [languageId] is either absent or falsy, or the id of a
    supported language.  Nothing follows about [fontSize]. *)
Theorem accepted_settings_shape :
  forall value : JsValue,
    isValid value = Return true ->
    exists properties o,
      value = JObject properties
      /\ lookup "codeStructureHighlight" properties = Some (JString o)
      /\ In o codeStructureOptions
      /\ (truthy (property value "languageId") = false
          \/ exists language,
               In language languages
               /\ lookup "languageId" properties
                  = Some (JString (id language))).
Proof.
  intros value Hvalid.
  destruct (isValid_true_object _ _ value Hvalid) as [properties ->].
  rewrite isValid_object in Hvalid. injection Hvalid as Hvalid.
  apply andb_true_iff in Hvalid. destruct Hvalid as [Hlanguage Hoption].
  apply negb_true_iff in Hlanguage. apply negb_true_iff in Hoption.
  unfold codeStructureHighlight_unknown in Hoption.
  apply negb_false_iff, existsb_exists in Hoption. destruct Hoption as [o [Hin Ho]].
  apply strict_equals_string_eq in Ho.
  exists properties, o. split; [reflexivity|].
  unfold property in Ho.
  destruct (lookup "codeStructureHighlight" properties) as [c|] eqn:Hc;
    [|discriminate Ho].
  subst c. split; [reflexivity|]. split; [exact Hin|].
  unfold languageId_unsupported in Hlanguage.
  apply andb_false_iff in Hlanguage. destruct Hlanguage as [Hfalsy|Hfound].
  - now left.
  - right. apply negb_false_iff, existsb_exists in Hfound.
    destruct Hfound as [language [Hin' Hid]].
    apply strict_equals_string_eq in Hid.
    exists language. split; [exact Hin'|].
    unfold property in Hid.
    destruct (lookup "languageId" properties) as [l|]; [|discriminate Hid].
    now subst l.
Qed.

(** X14. The validator looks at [languageId] and [codeStructureHighlight]
    and at nothing else: adding a property of any other name, changing it
    to any value or deleting it never changes the verdict on an object. *)
Theorem other_properties_ignored :
  forall (name : string) (v : JsValue) (properties : list (string * JsValue)),
    name <> "languageId" ->
    name <> "codeStructureHighlight" ->
    isValid (JObject (set_property name v properties))
    = isValid (JObject properties)
    /\ isValid (JObject (delete_property name properties))
       = isValid (JObject properties).
Proof.
  intros name v properties Hl Hc.
  apply String.eqb_neq in Hl. apply String.eqb_neq in Hc.
  split; apply isValid_reads;
    auto using lookup_set_property_other, lookup_delete_property_other.
Qed.

End SettingsGuarantees.

Section SettingsAcrossBuilds.

Import Settings.

(** A build and a production build: one whose stage is not ["REVIEW"] and
    whose [NODE_ENV] is ["production"]. *)
Variable stage : string.
Variable NODE_ENV : option string.
Variable production_stage : string.
Variable production_NODE_ENV : option string.

Hypothesis production :
  String.eqb production_stage "REVIEW" || negb (is_production production_NODE_ENV)
  = false.

(** The production build supports a sublist of the languages of every
    build. *)
Lemma production_languages (l : JsValue) :
  existsb (fun x => strict_equals_string (id x) l)
          (supportedLanguages production_stage production_NODE_ENV) = true ->
  existsb (fun x => strict_equals_string (id x) l)
          (supportedLanguages stage NODE_ENV) = true.
Proof.
  unfold supportedLanguages. rewrite production.
  cbn [existsb]. rewrite orb_false_r. intros ->. reflexivity.
Qed.

(** X15. Settings that a production build accepts are accepted by every
    build, whatever its [stage] and [NODE_ENV]: review and development
    builds only add a language. *)
Theorem production_settings_valid_everywhere :
  forall value : JsValue,
    isValidSettingsObject production_stage production_NODE_ENV value
    = Return true ->
    isValidSettingsObject stage NODE_ENV value = Return true.
Proof.
  intros value Hvalid.
  destruct (isValid_true_object _ _ value Hvalid) as [properties ->].
  rewrite isValid_object in *. injection Hvalid as Hvalid. f_equal.
  apply andb_true_iff in Hvalid. destruct Hvalid as [Hlanguage Hoption].
  rewrite Hoption, andb_true_r.
  apply negb_true_iff in Hlanguage. apply negb_true_iff.
  unfold languageId_unsupported in *.
  apply andb_false_iff in Hlanguage. apply andb_false_iff.
  destruct Hlanguage as [Hfalsy|Hfound]; [now left|right].
  apply negb_false_iff in Hfound. apply negb_false_iff.
  now apply production_languages.
Qed.

End SettingsAcrossBuilds.

Lemma accepted_settings_shape_witness :
  exists properties o,
    Samples.highlight_only = Settings.JObject properties
    /\ Settings.lookup "codeStructureHighlight" properties
       = Some (Settings.JString o)
    /\ In o Settings.codeStructureOptions
    /\ (Settings.truthy (Settings.property Samples.highlight_only "languageId")
        = false
        \/ exists language,
             In language (Settings.supportedLanguages Samples.stage
                            Samples.NODE_ENV)
             /\ Settings.lookup "languageId" properties
                = Some (Settings.JString (Settings.id language))).
Proof.
  apply (accepted_settings_shape Samples.stage Samples.NODE_ENV
           Samples.highlight_only).
  reflexivity.
Defined.

Lemma other_properties_ignored_witness :
  Samples.isValidSettingsObject
    (Settings.JObject
       (Settings.set_property "theme" (Settings.JString "dark")
          [ ("languageId", Settings.JString "fr") ]))
  = Samples.isValidSettingsObject
      (Settings.JObject [ ("languageId", Settings.JString "fr") ]).
Proof.
  apply (other_properties_ignored Samples.stage Samples.NODE_ENV
           "theme" (Settings.JString "dark")
           [ ("languageId", Settings.JString "fr") ]).
  - discriminate.
  - discriminate.
Defined.

(** English settings saved in production stay valid in a review build; the
    test language of a review build is not valid in production. *)
Lemma production_settings_valid_everywhere_witness :
  Settings.isValidSettingsObject "REVIEW" (Some "production")
    Samples.english_settings = Return true
  /\ Settings.isValidSettingsObject "REVIEW" (Some "production")
       Samples.test_language_settings = Return true
  /\ Samples.isValidSettingsObject Samples.test_language_settings
     = Return false.
Proof.
  split.
  - apply (production_settings_valid_everywhere
             "REVIEW" (Some "production") Samples.stage Samples.NODE_ENV).
    + reflexivity.
    + reflexivity.
  - split; reflexivity.
Defined.

(** * Settings: the highlighting presets *)

Section CodeStructurePresets.

Import Settings.

(** X16. The highlighting preset is decided by the
    [codeStructureHighlight] option alone, and the three options give three
    different presets: language and font size have no influence, and two
    settings are highlighted alike only when their options are equal. *)
Theorem presets_follow_option :
  forall s1 s2 : Settings,
    codeStructureSettings s1 = codeStructureSettings s2
    <-> codeStructureHighlight s1 = codeStructureHighlight s2.
Proof.
  intros s1 s2. unfold codeStructureSettings. split.
  - destruct (codeStructureHighlight s1), (codeStructureHighlight s2);
      intros H; try reflexivity; discriminate H.
  - now intros ->.
Qed.

End CodeStructurePresets.

(** * The router: what survives the URL *)

Section RouterThroughUrl.

Import Router.

Local Abbreviation shown := (fun kv : RouterKey * RouterValue => truthy (snd kv)).

(** Reading one key of a parsed state when the parameters hold the truthy
    entries of a well-typed value. *)
Lemma parse_key_through_url (params : list (string * string))
  (value : RouterValue) (key : RouterKey) :
  well_typed key value = true ->
  params_get params (key_name key)
  = (if truthy value then Some (value_text value) else None) ->
  state_get
    [ (tab, match params_get params "tab" with
            | Some s => VString s
            | None => VUndefined
            end);
      (reference, anchorForParam (params_get params "reference"));
      (explore, anchorForParam (params_get params "explore")) ] key
  = through_url value.
Proof.
  intros Htyped Hget.
  destruct key; simpl in *; rewrite Hget;
    destruct value as [|s|[i]]; try discriminate Htyped; try reflexivity;
    unfold through_url; simpl; now destruct (is_empty _).
Qed.

(** X17. For every router state, [navigate] builds a query and parsing it,
    with or without the leading question mark, gives on each key the
    original value, except that an empty tab name and an anchor with an
    empty id come back as [undefined]. *)
Theorem parse_after_navigate :
  forall state : RouterState,
    is_RouterState state = true ->
    exists query : string,
      navigate_query state = Return query
      /\ (forall key,
             state_get (parse query) key = through_url (state_get state key))
      /\ (forall key,
             state_get (parse (String "?" query)) key
             = through_url (state_get state key)).
Proof.
  intros state Hstate.
  eexists. split; [apply navigate_query_returns|].
  destruct (URLSearchParams_query (filter shown state)) as [Hbare Hmark].
  cbv zeta in Hbare, Hmark.
  assert (Hkey : forall key,
    params_get (map param_of (filter shown state)) (key_name key)
    = if truthy (state_get state key)
      then Some (value_text (state_get state key)) else None).
  { intros key. rewrite params_get_param_of, entry_get_shown by exact Hstate.
    now destruct (truthy (state_get state key)). }
  split; intros key; unfold parse; rewrite ?Hbare, ?Hmark;
    (apply parse_key_through_url;
     [ now apply state_get_well_typed | apply Hkey ]).
Qed.


(** ** The pushed URL *)

(** X19. [navigate] replaces the query of the current location: everything
    from its first question mark on, a fragment after the query included,
    is dropped, and the new query follows after a question mark unless it
    is empty.  A location without a question mark is kept whole. *)
Theorem navigate_url_replaces_query :
  forall (base rest query : string),
    lacks "?" base = true ->
    navigate_url (base ++ String "?" rest) query = navigate_url base query
    /\ navigate_url base query
       = base ++ (if is_empty query then EmptyString else String "?" query).
Proof.
  intros base rest query Hbase. unfold navigate_url.
  rewrite (split_app "?" base rest Hbase), (split_lacks "?" base Hbase).
  split; reflexivity.
Qed.

(** ** Setting parameters *)

Lemma state_set_fresh (state : RouterState) (key other : RouterKey)
  (value : RouterValue) :
  key_eqb key other = false ->
  existsb (fun kv => key_eqb (fst kv) other) (state_set state key value)
  = existsb (fun kv => key_eqb (fst kv) other) state.
Proof.
  intros Hneq. induction state as [|[k v] rest IH]; simpl.
  - now rewrite Hneq.
  - destruct (key_eqb k key) eqn:Hk; simpl; [reflexivity|].
    now rewrite IH.
Qed.

(** The setter's object is a router state again. *)
Lemma state_set_is_RouterState (state : RouterState) (key : RouterKey)
  (value : RouterValue) :
  is_RouterState state = true ->
  well_typed key value = true ->
  is_RouterState (state_set state key value) = true.
Proof.
  intros Hstate Htyped. induction state as [|[k v] rest IH]; simpl.
  - now rewrite Htyped.
  - simpl in Hstate.
    apply andb_true_iff in Hstate. destruct Hstate as [H Hrest].
    apply andb_true_iff in H. destruct H as [Hkv Hfresh].
    destruct (key_eqb k key) eqn:Hk; simpl.
    + apply key_eqb_eq in Hk. subst k.
      now rewrite Htyped, Hfresh, Hrest.
    + rewrite Hkv, (IH Hrest), andb_true_r. simpl.
      rewrite state_set_fresh; [exact Hfresh|].
      apply key_eqb_neq. apply key_eqb_neq in Hk. congruence.
Qed.

(** X20. Setting a parameter, end to end: from a router state, the setter
    of [useRouterParam] pushes a URL made of the location's base and a new
    query, and a reload that parses that query finds the parameter at its
    new value and every other parameter at its old one, empty strings
    coming back as [undefined]. *)
Theorem set_param_then_reload :
  forall (href : string) (state : RouterState) (param : RouterParam)
         (value : RouterValue),
    is_RouterState state = true ->
    well_typed (param_id param) value = true ->
    exists (query : string) (newState : RouterState),
      snd (useRouterParam state (navigate href) param) value
      = Return (navigate_url href query, newState)
      /\ get param (parse query) = through_url value
      /\ (forall other : RouterParam,
             param_id other <> param_id param ->
             get other (parse query) = through_url (get other state)).
Proof.
  intros href state param value Hstate Htyped.
  pose proof (state_set_is_RouterState state (param_id param) value
                Hstate Htyped) as Hnew.
  unfold useRouterParam, navigateParam, navigate. cbn [snd].
  rewrite navigate_query_returns. cbn [bind].
  eexists. eexists. split; [reflexivity|].
  destruct (URLSearchParams_query
              (filter shown (state_set state (param_id param) value)))
    as [Hbare _].
  cbv zeta in Hbare.
  assert (Hkey : forall key,
    state_get
      (parse (String.concat "&"
                (map query_part
                   (filter shown (state_set state (param_id param) value)))))
      key
    = through_url (state_get (state_set state (param_id param) value) key)).
  { intros key. unfold parse. rewrite Hbare.
    apply parse_key_through_url; [now apply state_get_well_typed|].
    rewrite params_get_param_of, entry_get_shown by exact Hnew.
    now destruct (truthy _). }
  unfold get. split.
  - now rewrite Hkey, state_get_set_same.
  - intros other Hneq. now rewrite Hkey, state_get_set_other.
Qed.

(** X21. Setting a parameter twice leaves the object that setting it once
    to the second value gives: the property keeps its place and only the
    last value stays. *)
Theorem state_set_twice :
  forall (state : RouterState) (key : RouterKey) (v1 v2 : RouterValue),
    state_set (state_set state key v1) key v2 = state_set state key v2.
Proof.
  intros state key v1 v2. induction state as [|[k v] rest IH]; simpl.
  - now rewrite key_eqb_refl.
  - destruct (key_eqb k key) eqn:Hk; simpl; rewrite Hk.
    + reflexivity.
    + now rewrite IH.
Qed.

(** ** The characters of a query *)

Ltac each_char c := destruct c as [[] [] [] [] [] [] [] []].

Lemma hex_digits_unreserved (c : ascii) :
  unreserved (hex_digit (nat_of_ascii c / 16)) = true
  /\ unreserved (hex_digit (nat_of_ascii c mod 16)) = true.
Proof. each_char c; split; reflexivity. Qed.

Lemma lacks_one (d c : ascii) : c <> d -> lacks d (String c EmptyString) = true.
Proof.
  intros Hneq. simpl. apply Ascii.eqb_neq in Hneq. now rewrite Hneq.
Qed.

Lemma encode_char_only (c d : ascii) :
  unreserved d = false -> d <> "%"%char -> lacks d (encode_char c) = true.
Proof.
  intros Hd Hpercent. unfold encode_char.
  destruct (unreserved c) eqn:Hc.
  - apply lacks_one. congruence.
  - destruct (hex_digits_unreserved c) as [Hhi Hlo].
    cbn [lacks].
    assert (Hneq : forall x, unreserved x = true -> Ascii.eqb x d = false).
    { intros x Hx. apply Ascii.eqb_neq. congruence. }
    rewrite (Hneq _ Hhi), (Hneq _ Hlo).
    apply Ascii.eqb_neq in Hpercent. rewrite Ascii.eqb_sym in Hpercent.
    now rewrite Hpercent.
Qed.

Lemma encodeURIComponent_only (s : string) (d : ascii) :
  unreserved d = false -> d <> "%"%char ->
  lacks d (encodeURIComponent s) = true.
Proof.
  intros Hd Hpercent. induction s as [|c s IH]; simpl; [reflexivity|].
  now rewrite lacks_app, encode_char_only, IH.
Qed.

(** X22. The query [navigate] builds is made of the characters
    [encodeURIComponent] leaves alone (letters, digits and [- _ . ! ~ * ' ( )]),
    of percent escapes, and of the [=] and [&] it puts between names and
    values: no question mark, number sign, plus sign or space ever occurs
    in it, whatever the state holds. *)
Theorem query_characters :
  forall (state : RouterState) (query : string) (d : ascii),
    navigate_query state = Return query ->
    unreserved d = false ->
    d <> "%"%char -> d <> "="%char -> d <> "&"%char ->
    lacks d query = true.
Proof.
  intros state query d Hquery Hd Hpercent Heq Hamp.
  rewrite navigate_query_returns in Hquery. injection Hquery as <-.
  apply concat_lacks; [exact Hamp|].
  apply forallb_map. intros kv. unfold query_part.
  rewrite lacks_app. cbn [lacks].
  rewrite !encodeURIComponent_only by assumption.
  apply Ascii.eqb_neq in Heq. rewrite Ascii.eqb_sym in Heq.
  now rewrite Heq.
Qed.

End RouterThroughUrl.

Lemma parse_after_navigate_witness :
  exists query : string,
    Router.navigate_query Samples.empty_anchor_state = Return query
    /\ (forall key,
           Router.state_get (Router.parse query) key
           = Router.through_url
               (Router.state_get Samples.empty_anchor_state key))
    /\ (forall key,
           Router.state_get (Router.parse (String "?" query)) key
           = Router.through_url
               (Router.state_get Samples.empty_anchor_state key)).
Proof.
  apply (parse_after_navigate Samples.empty_anchor_state).
  reflexivity.
Defined.

Lemma navigate_url_replaces_query_witness :
  Router.navigate_url "https://python.microbit.org/v/beta?tab=files#top"
    "tab=reference"
  = "https://python.microbit.org/v/beta?tab=reference".
Proof.
  destruct (navigate_url_replaces_query
              "https://python.microbit.org/v/beta" "tab=files#top"
              "tab=reference") as [Hdrop Hbase].
  - reflexivity.
  - simpl append in Hdrop. rewrite Hdrop, Hbase. reflexivity.
Defined.

Lemma set_param_then_reload_witness :
  exists (query : string) (newState : Router.RouterState),
    snd (Router.useRouterParam Samples.docs_state
           (Router.navigate "https://python.microbit.org/v/beta")
           Router.RouterParam_tab)
        (Router.VString "")
    = Return (Router.navigate_url "https://python.microbit.org/v/beta" query,
              newState)
    /\ Router.get Router.RouterParam_tab (Router.parse query)
       = Router.through_url (Router.VString "")
    /\ (forall other : Router.RouterParam,
           Router.param_id other <> Router.param_id Router.RouterParam_tab ->
           Router.get other (Router.parse query)
           = Router.through_url (Router.get other Samples.docs_state)).
Proof.
  apply (set_param_then_reload "https://python.microbit.org/v/beta"
           Samples.docs_state Router.RouterParam_tab (Router.VString "")).
  - reflexivity.
  - reflexivity.
Defined.

Lemma query_characters_witness :
  Router.lacks "#" "tab=reference&reference=a%26b%3Dc%20d%2Be%2F%2541%3F"
  = true.
Proof.
  apply (query_characters Samples.docs_state
           "tab=reference&reference=a%26b%3Dc%20d%2Be%2F%2541%3F" "#").
  - reflexivity.
  - reflexivity.
  - discriminate.
  - discriminate.
  - discriminate.
Defined.
